(** * BlockSnap front end: a shallow embedding of the React components

    The development follows the JavaScript sources of the front end:
    - [connectors.js] (the injected wallet connector) and the [Navbar]
      component that switches the wallet's chain before activating it;
    - [DashcamView] (chunked recording and upload of dashcam clips);
    - [BlockchainProof] (the on-chain proof page and its sample data);
    - [Gallery] (loading the media of a wallet, ordering and showing the
      chunks of a video session);
    - [VerifyMedia] (verifying a transaction hash and the result box).

    The verification server (transaction resolver, block-range scanner)
    is Python code that is not part of the sources at hand; it is
    modelled from its written specification in the modules [Resolver]
    and [Scanner]. *)

From Stdlib Require Import ZArith String Ascii List Bool Lia Sorted DecimalString.
From Stdlib Require DecimalPos DecimalZ Permutation.
From stdpp Require Import base option list gmap strings sorting.

Local Open Scope string_scope.
Local Open Scope Z_scope.

(** ** JavaScript values *)

Module JS.

(** The values that travel through the components: JSON scalars, plus
    objects and arrays seen only through what [String(v)] yields for them
    (they are truthy, are not strings and carry no string methods).
    Numbers are the integers (token ids, block numbers, counters), taken
    within the range in which a JavaScript number is that integer
    exactly, up to [MAX_SAFE_INTEGER] in absolute value. *)
Inductive jsval : Type :=
| JUndef
| JNull
| JBool (b : bool)
| JNum (n : Z)
| JStr (s : string)
| JObj (rendering : string).

(** [Number.MAX_SAFE_INTEGER], 2^53 - 1. *)
Definition MAX_SAFE_INTEGER : Z := 9007199254740991.

(** ToBoolean: [undefined], [null], [false], [0] and [''] are falsy. *)
Definition truthy (v : jsval) : bool :=
  match v with
  | JUndef | JNull => false
  | JBool b => b
  | JNum n => negb (n =? 0)
  | JStr s => negb (String.eqb s "")
  | JObj _ => true
  end.

(** [a || b] *)
Definition js_or (a b : jsval) : jsval := if truthy a then a else b.

(** [typeof v === 'string'] *)
Definition is_string (v : jsval) : bool :=
  match v with JStr _ => true | _ => false end.

(** ToString, as applied by template literals and by [FormData.append]. *)
Definition to_string (v : jsval) : string :=
  match v with
  | JUndef => "undefined"
  | JNull => "null"
  | JBool true => "true"
  | JBool false => "false"
  | JNum n => NilZero.string_of_int (Z.to_int n)
  | JStr s => s
  | JObj r => r
  end.

(** Property read [o.k] on an object: [undefined] when the key is absent. *)
Definition get (o : gmap string jsval) (k : string) : jsval :=
  default JUndef (o !! k).

(** [s.startsWith(p)] *)
Fixpoint startsWith (p s : string) : bool :=
  match p, s with
  | EmptyString, _ => true
  | String a p', String b s' => Ascii.eqb a b && startsWith p' s'
  | String _ _, EmptyString => false
  end.

Fixpoint drop_chars (n : nat) (s : string) : string :=
  match n, s with
  | O, _ => s
  | S n', String _ s' => drop_chars n' s'
  | S _, EmptyString => EmptyString
  end.

(** [s.replace(pat, rep)] with a string pattern: only the first occurrence
    is replaced. *)
Fixpoint replace (pat rep s : string) : string :=
  if startsWith pat s then (rep ++ drop_chars (String.length pat) s)%string
  else match s with
       | EmptyString => EmptyString
       | String c s' => String c (replace pat rep s')
       end.

(** Exceptions that the components can meet. *)
Inductive exn : Type :=
| TypeError (what : string)
| RequestFailed (what : string).

(** Computations that emit effects of type [E] in order and either return
    or throw. *)
Definition M (E A : Type) : Type := (list E * (exn + A))%type.

Definition ret {E A} (a : A) : M E A := ([], inr a).

Definition bind {E A B} (m : M E A) (k : A -> M E B) : M E B :=
  match m with
  | (es, inl x) => (es, inl x)
  | (es, inr a) => let '(es', r) := k a in ((es ++ es')%list, r)
  end.

Definition throw {E A} (x : exn) : M E A := ([], inl x).

Definition emit {E} (e : E) : M E unit := ([e], inr tt).

(** [try { body } catch (error) { handler }] *)
Definition try_catch {E A} (body : M E A) (handler : exn -> M E A) : M E A :=
  match body with
  | (es, inl x) => let '(es', r) := handler x in ((es ++ es')%list, r)
  | (es, inr a) => (es, inr a)
  end.

(** [try { body } finally { fin }] *)
Definition try_finally {E A} (body : M E A) (fin : M E unit) : M E A :=
  match body, fin with
  | (es, r), (es', inr _) => ((es ++ es')%list, r)
  | (es, _), (es', inl x) => ((es ++ es')%list, inl x)
  end.

(** An HTTP exchange made through axios: the promise rejects (network
    failure, error status) or resolves with the response body. *)
Inductive http (D : Type) : Type :=
| Rejected
| Resolved (data : D).
Arguments Rejected {D}.
Arguments Resolved {D} data.

Definition await {E D} (url : string) (r : http D) : M E D :=
  match r with
  | Rejected => throw (RequestFailed url)
  | Resolved d => ret d
  end.

(** [s.substring(start, end)]: both positions are clamped to the length
    of the string (a negative one counts as 0) and swapped when the first
    is the greater.  Positions count characters of one code unit, as in
    the addresses and hashes these components cut. *)
Definition clamp (len : nat) (i : Z) : nat :=
  Z.to_nat (Z.min (Z.max i 0) (Z.of_nat len)).

Definition substring (s : string) (i j : Z) : string :=
  let a := clamp (String.length s) i in
  let b := clamp (String.length s) j in
  String.substring (Nat.min a b) (Nat.max a b - Nat.min a b) s.

(** [s.substring(start)] *)
Definition substring_from (s : string) (i : Z) : string :=
  substring s i (Z.of_nat (String.length s)).

Fixpoint zeros (n : nat) : string :=
  match n with
  | O => EmptyString
  | S n' => String "0" (zeros n')
  end.

(** [s.padStart(n, '0')] *)
Definition padStart0 (n : nat) (s : string) : string :=
  (zeros (n - String.length s) ++ s)%string.

(** A request as the pages that show [error.message] see it: the promise
    rejects with an error of that message, or resolves with the body. *)
Inductive reply (D : Type) : Type :=
| Fails (message : string)
| Answers (data : D).
Arguments Fails {D} message.
Arguments Answers {D} data.

Definition settle {E D} (r : reply D) : M E D :=
  match r with
  | Fails message => throw (RequestFailed message)
  | Answers d => ret d
  end.

(** [error.message] *)
Definition message_of (e : exn) : string :=
  match e with
  | TypeError what => what
  | RequestFailed what => what
  end.

(** [v === s] for a string literal [s]. *)
Definition is_literal (s : string) (v : jsval) : bool :=
  match v with
  | JStr s' => String.eqb s' s
  | _ => false
  end.

(** [v === n] for a number literal [n]. *)
Definition is_number (n : Z) (v : jsval) : bool :=
  match v with
  | JNum n' => n' =? n
  | _ => false
  end.

End JS.

Import JS.

Notation "'let!' x ':=' m 'in' k" := (JS.bind m (fun x => k))
  (at level 10, x name, m at level 100, k at level 200).
Notation "m ;;; k" := (JS.bind m (fun _ => k))
  (at level 100, k at level 200, right associativity).

(** ** connectors.js and the chain selected by Navbar.connectWallet *)

Module Connectors.

(** [supportedChainIds] of the [InjectedConnector]. *)
Definition supportedChainIds : list Z := [24578; 1337].

(** The connector accepts a chain id when
    [supportedChainIds.includes(chainId)]. *)
Definition supported (c : Z) : bool :=
  existsb (Z.eqb c) supportedChainIds.

(** The [chainId] parameter that [connectWallet] passes to
    [wallet_switchEthereumChain] and [wallet_addEthereumChain]. *)
Definition connectWallet_chainId : string := "0x60AE".

Definition hex_digit (c : ascii) : option Z :=
  let n := Z.of_nat (nat_of_ascii c) in
  if (48 <=? n) && (n <=? 57) then Some (n - 48)
  else if (65 <=? n) && (n <=? 70) then Some (n - 55)
  else if (97 <=? n) && (n <=? 102) then Some (n - 87)
  else None.

Fixpoint hex_digits (acc : Z) (s : string) : option Z :=
  match s with
  | EmptyString => Some acc
  | String c s' =>
      match hex_digit c with
      | Some d => hex_digits (16 * acc + d) s'
      | None => None
      end
  end.

(** The number denoted by a [0x]-prefixed hexadecimal string. *)
Definition parse_hex (s : string) : option Z :=
  match s with
  | String "0" (String "x" (String c rest)) => hex_digits 0 (String c rest)
  | _ => None
  end.

End Connectors.

(** ** DashcamView *)

Module DashcamView.

(** The values a render of the component binds: the [useState] cells and
    the [account] of [useWeb3React].  Every function declared in the
    component body ([uploadClip], [startRecording], [stopRecording]) is
    created anew by each render and reads the values of that render. *)
Record Render : Type := {
  isRecording : bool;
  recordingTime : Z;
  sessionClips : Z;
  sessionId : jsval;
  hasPermission : bool;
  cameraStream : option nat;
  account : jsval
}.

(** The multipart form posted to [/api/dashcam/upload]; [FormData.append]
    stores every non-file value as a string. *)
Record FormData : Type := {
  video : string;
  wallet_address : string;
  sequence_number : string;
  session_id : string;
  is_first_chunk : string;
  is_last_chunk : string
}.

Inductive action : Type :=
| Post (form : FormData)
| SetSessionId (v : jsval)
| IncSessionClips
| Toast (title : string)
| ConsoleError (message : string).

Definition defaultAddress : string :=
  "0x0000000000000000000000000000000000000000".

Definition flag (b : bool) : string := if b then "true" else "false".

Definition clip_name (now : Z) : string :=
  ("dashcam_" ++ to_string (JNum now) ++ ".webm")%string.

(** [response.data.session_id]: reading a property of [null] or
    [undefined] throws. *)
Definition data_session_id (data : option (gmap string jsval))
  : M action jsval :=
  match data with
  | None => throw (TypeError "response.data.session_id")
  | Some o => ret (get o "session_id")
  end.

(** The statements shared by both branches of [uploadClip] once the form
    is filled: post, then record the session id and count the clip. *)
Definition post_and_record (r : Render) (form : FormData)
    (resp : http (option (gmap string jsval))) : M action unit :=
  emit (Post form) ;;;
  let! data := await "http://localhost:5000/api/dashcam/upload" resp in
  let! sid := data_session_id data in
  if truthy sid then
    (if negb (truthy (sessionId r)) then emit (SetSessionId sid) else ret tt) ;;;
    emit IncSessionClips
  else ret tt.

(** [uploadClip(videoBlob)], as created by the render [r]; [now] is
    [Date.now()] and [resp] the outcome of the [axios.post]. *)
Definition uploadClip (r : Render) (now : Z)
    (resp : http (option (gmap string jsval))) : M action unit :=
  try_catch
    (if negb (truthy (account r)) then
       emit (ConsoleError "Wallet not connected during upload attempt") ;;;
       post_and_record r
         {| video := clip_name now;
            wallet_address := to_string (js_or (account r) (JStr defaultAddress));
            sequence_number := to_string (JNum (sessionClips r));
            session_id := to_string (sessionId r);
            is_first_chunk := flag (negb (truthy (sessionId r)));
            is_last_chunk := flag (negb (isRecording r)) |}
         resp
     else
       post_and_record r
         {| video := clip_name now;
            wallet_address := to_string (account r);
            sequence_number := to_string (JNum (sessionClips r));
            session_id := to_string (sessionId r);
            is_first_chunk := flag (negb (truthy (sessionId r)));
            is_last_chunk := flag (negb (isRecording r)) |}
         resp)
    (fun error =>
       emit (ConsoleError "Upload error:") ;;;
       emit (Toast "Upload Failed")).


(** The form that a call of [uploadClip] made by the render [r] posts. *)
Definition filled_form (r : Render) (now : Z) : FormData :=
  {| video := clip_name now;
     wallet_address :=
       if truthy (account r) then to_string (account r) else defaultAddress;
     sequence_number := to_string (JNum (sessionClips r));
     session_id := to_string (sessionId r);
     is_first_chunk := flag (negb (truthy (sessionId r)));
     is_last_chunk := flag (negb (isRecording r)) |}.

(** *** The component as a transition system *)

(** The states of a [MediaRecorder] that the component reaches (it never
    pauses). *)
Inductive RecorderState : Type := inactive | recording.

(** The [MediaRecorder] held in [mediaRecorderRef.current].  Its
    [ondataavailable] handler is assigned in one place only, the effect
    declared with the dependency list [[cameraStream]] (lines 63 to 121 of
    the component): React runs that effect again only when the stream
    changes, so the handler goes on calling the [uploadClip] of the render
    in which the effect last ran.  What the recorder keeps is therefore
    that render.  [flushing] says that [stop()] has queued the final
    [dataavailable]. *)
Record Recorder : Type := {
  stream : nat;
  state : RecorderState;
  flushing : bool;
  ondataavailable : Render
}.

Record Component : Type := {
  current : Render;
  mediaRecorderRef : option Recorder
}.

Definition set_isRecording (b : bool) (r : Render) : Render :=
  {| isRecording := b; recordingTime := recordingTime r;
     sessionClips := sessionClips r; sessionId := sessionId r;
     hasPermission := hasPermission r; cameraStream := cameraStream r;
     account := account r |}.

Definition set_recordingTime (t : Z) (r : Render) : Render :=
  {| isRecording := isRecording r; recordingTime := t;
     sessionClips := sessionClips r; sessionId := sessionId r;
     hasPermission := hasPermission r; cameraStream := cameraStream r;
     account := account r |}.

Definition set_sessionClips (n : Z) (r : Render) : Render :=
  {| isRecording := isRecording r; recordingTime := recordingTime r;
     sessionClips := n; sessionId := sessionId r;
     hasPermission := hasPermission r; cameraStream := cameraStream r;
     account := account r |}.

Definition set_sessionId (v : jsval) (r : Render) : Render :=
  {| isRecording := isRecording r; recordingTime := recordingTime r;
     sessionClips := sessionClips r; sessionId := v;
     hasPermission := hasPermission r; cameraStream := cameraStream r;
     account := account r |}.

Definition set_camera (st : nat) (r : Render) : Render :=
  {| isRecording := isRecording r; recordingTime := recordingTime r;
     sessionClips := sessionClips r; sessionId := sessionId r;
     hasPermission := true; cameraStream := Some st;
     account := account r |}.

Definition set_account (a : jsval) (r : Render) : Render :=
  {| isRecording := isRecording r; recordingTime := recordingTime r;
     sessionClips := sessionClips r; sessionId := sessionId r;
     hasPermission := hasPermission r; cameraStream := cameraStream r;
     account := a |}.

(** The state setters that [uploadClip] calls act on the state cells as
    they are when the call is made: [setSessionId(v)] stores [v] and
    [setSessionClips(prev => prev + 1)] increments the current count. *)
Definition apply (r : Render) (a : action) : Render :=
  match a with
  | SetSessionId v => set_sessionId v r
  | IncSessionClips => set_sessionClips (sessionClips r + 1) r
  | Post _ | Toast _ | ConsoleError _ => r
  end.

Definition is_recording (rec : Recorder) : bool :=
  match state rec with recording => true | inactive => false end.

(** [recorder.stop()]: the recorder becomes inactive and delivers the data
    gathered so far in a last [dataavailable] event. *)
Definition stop (rec : Recorder) : Recorder :=
  {| stream := stream rec; state := inactive; flushing := true;
     ondataavailable := ondataavailable rec |}.

(** [recorder.start(30000)] *)
Definition start (rec : Recorder) : Recorder :=
  {| stream := stream rec; state := recording; flushing := flushing rec;
     ondataavailable := ondataavailable rec |}.

Definition delivered (rec : Recorder) : Recorder :=
  {| stream := stream rec; state := state rec; flushing := false;
     ondataavailable := ondataavailable rec |}.

Definition is_inactive (rec : Recorder) : bool :=
  match state rec with inactive => true | recording => false end.

(** Clean-up of the [[cameraStream]] effect: stop the recorder unless it is
    inactive. *)
Definition cleanup_camera (ref : option Recorder) : option Recorder :=
  match ref with
  | Some rec => if negb (is_inactive rec) then Some (stop rec) else ref
  | None => None
  end.

(** Clean-up of the [[isRecording]] effect: stop the recorder if it is
    recording. *)
Definition cleanup_recording (ref : option Recorder) : option Recorder :=
  match ref with
  | Some rec => if is_recording rec then Some (stop rec) else ref
  | None => None
  end.

(** Body of the [[cameraStream]] effect run after the render [new]: a new
    recorder whose handler calls the [uploadClip] of [new]. *)
Definition camera_effect (mimeSupported : bool) (new : Render)
    (ref : option Recorder) : option Recorder * list action :=
  match cameraStream new with
  | None => (ref, [])
  | Some st =>
      if mimeSupported then
        (Some {| stream := st; state := inactive; flushing := false;
                 ondataavailable := new |}, [])
      else
        (ref, [ConsoleError "MediaRecorder initialization error:";
               Toast "Recording Error"])
  end.

(** Body of the [[isRecording]] effect; [start(30000)] is taken to
    succeed. *)
Definition recording_effect (new : Render) (ref : option Recorder)
  : option Recorder :=
  if isRecording new then
    match ref with
    | Some rec => Some (if is_recording rec then rec else start rec)
    | None => None
    end
  else ref.

(** What React does after rendering [new] over [old]: the clean-ups of the
    effects whose dependencies changed, then their bodies, in the order of
    declaration.  The effect on [[account, isRecording]] only logs. *)
Definition commit (mimeSupported : bool) (old new : Render)
    (ref : option Recorder) : Component * list action :=
  let cam := negb (bool_decide (cameraStream old = cameraStream new)) in
  let rcd := negb (Bool.eqb (isRecording old) (isRecording new)) in
  let ref1 := if cam then cleanup_camera ref else ref in
  let ref2 := if rcd then cleanup_recording ref1 else ref1 in
  let '(ref3, acts) :=
    if cam then camera_effect mimeSupported new ref2 else (ref2, []) in
  let ref4 := if rcd then recording_effect new ref3 else ref3 in
  ({| current := new; mediaRecorderRef := ref4 |}, acts).

Inductive CameraOutcome : Type := Granted (stream : nat) | Denied.

(** [requestCameraPermission()] with the answer of [getUserMedia]. *)
Definition requestCameraPermission (cam : CameraOutcome) (r : Render)
  : Render * list action * bool :=
  match cam with
  | Granted st => (set_camera st r, [], true)
  | Denied =>
      (r, [ConsoleError "Camera permission error:";
           Toast "Camera Permission Required"], false)
  end.

(** [startRecording()]; [cam] answers the camera request made when
    permission is missing.  The state updates made after the [await] are
    rendered together, after the check of [mediaRecorderRef.current].
    When permission is missing, the click and the camera's answer are
    taken as one step: the page is still as the click found it when the
    answer arrives.  A run in which another event falls between the two
    (the answer to the camera request of the mount effect, say) is not
    described; with permission at hand nothing is awaited and the
    handler runs at the click. *)
Definition startRecording (cam : CameraOutcome) (c : Component)
  : Render * list action :=
  let '(r, acts, granted) :=
    if negb (hasPermission (current c))
    then requestCameraPermission cam (current c)
    else (current c, [], true) in
  if negb granted then (r, acts)
  else match mediaRecorderRef c with
       | None => (r, (acts ++ [Toast "Camera Not Ready"])%list)
       | Some _ =>
           (set_isRecording true
              (set_recordingTime 0
                 (set_sessionClips 0 (set_sessionId JNull r))), acts)
       end.

(** [stopRecording()] *)
Definition stopRecording (c : Component) : Render * option Recorder :=
  (set_recordingTime 0 (set_isRecording false (current c)),
   cleanup_recording (mediaRecorderRef c)).

Inductive Event : Type :=
| CameraAnswer (cam : CameraOutcome)
| AccountChanged (a : jsval)
| ClickStart (cam : CameraOutcome)
| ClickStop
| DataAvailable (size now : Z) (resp : http (option (gmap string jsval)))
| Tick.

(** One event of the page.  [CameraAnswer] settles the camera request of
    the mount effect.  The Start and Stop buttons are rendered only while
    an account is connected, Start when not recording and Stop when
    recording; the camera answer that [ClickStart] carries is consulted
    only when permission is missing.  [DataAvailable] is the recorder's
    [dataavailable] event (a 30 second slice, or the last data after
    [stop()]) together with the server's answer to the upload it causes;
    the handler uploads when the blob is not empty. *)
Definition step (mimeSupported : bool) (c : Component) (ev : Event)
  : Component * list action :=
  match ev with
  | CameraAnswer cam =>
      let '(r, acts, _) := requestCameraPermission cam (current c) in
      let '(c', acts') := commit mimeSupported (current c) r (mediaRecorderRef c) in
      (c', (acts ++ acts')%list)
  | AccountChanged a =>
      commit mimeSupported (current c) (set_account a (current c))
        (mediaRecorderRef c)
  | ClickStart cam =>
      if truthy (account (current c)) && negb (isRecording (current c)) then
        let '(r, acts) := startRecording cam c in
        let '(c', acts') := commit mimeSupported (current c) r (mediaRecorderRef c) in
        (c', (acts ++ acts')%list)
      else (c, [])
  | ClickStop =>
      if truthy (account (current c)) && isRecording (current c) then
        let '(r, ref) := stopRecording c in
        commit mimeSupported (current c) r ref
      else (c, [])
  | DataAvailable size now resp =>
      match mediaRecorderRef c with
      | Some rec =>
          if flushing rec || is_recording rec then
            let acts :=
              if 0 <? size then fst (uploadClip (ondataavailable rec) now resp)
              else [] in
            let '(c', acts') :=
              commit mimeSupported (current c) (fold_left apply acts (current c))
                (Some (delivered rec)) in
            (c', (acts ++ acts')%list)
          else (c, [])
      | None => (c, [])
      end
  | Tick =>
      if isRecording (current c) then
        commit mimeSupported (current c)
          (set_recordingTime (recordingTime (current c) + 1) (current c))
          (mediaRecorderRef c)
      else (c, [])
  end.

(** The component after its first render; the mount effect has asked for
    the camera and no answer has come yet. *)
Definition mount (acct : jsval) : Component :=
  {| current :=
       {| isRecording := false; recordingTime := 0; sessionClips := 0;
          sessionId := JNull; hasPermission := false; cameraStream := None;
          account := acct |};
     mediaRecorderRef := None |}.

Fixpoint run (mimeSupported : bool) (c : Component) (evs : list Event)
  : Component * list action :=
  match evs with
  | [] => (c, [])
  | ev :: rest =>
      let '(c1, a1) := step mimeSupported c ev in
      let '(c2, a2) := run mimeSupported c1 rest in
      (c2, (a1 ++ a2)%list)
  end.

(** The events that leave the camera stream as it is. *)
Definition keeps_stream (ev : Event) : bool :=
  match ev with
  | CameraAnswer (Granted _) | ClickStart (Granted _) => false
  | _ => true
  end.

(** The forms posted, in order. *)
Definition posts (acts : list action) : list FormData :=
  omap (fun a => match a with Post f => Some f | _ => None end) acts.


(** *** A recording session, event by event *)

(** An account connected through the wallet. *)
Definition wallet : jsval := JStr "0x71C7656EC7ab88b098defB751B7401B5f6d8976F".

(** The server accepts a chunk and answers with a session id. *)
Definition accepted (sid : Z) : http (option (gmap string jsval)) :=
  Resolved (Some {[ "session_id" := JNum sid ]}).

(** The page is opened before the wallet is connected: the camera is
    granted first, then the wallet connects and the user presses Start. *)
Definition recording_started_after_late_connection : Component :=
  fst (run true (mount JUndef)
         [CameraAnswer (Granted 1); AccountChanged wallet; ClickStart Denied]).

(** The page is opened with the wallet connected, the camera is granted,
    and the user presses Start (permission being there, the camera answer
    carried by the click is not consulted). *)
Definition recording_started : Component :=
  fst (run true (mount wallet) [CameraAnswer (Granted 1); ClickStart Denied]).


(** *** The clock and the badge *)

(** [formatTime(seconds)], for a count of seconds from 0 to
    [MAX_SAFE_INTEGER], as the timer of the page produces them: on these
    [Math.floor(seconds / 60)] and [seconds % 60] are the quotient and
    the remainder of the integer division, and [toString] writes both in
    plain digits.  Outside this range the source computes on doubles
    (rounded quotients, exponent notation), which this definition does
    not follow. *)
Definition formatTime (seconds : Z) : string :=
  let mins := seconds / 60 in
  let secs := Z.rem seconds 60 in
  (padStart0 2 (to_string (JNum mins)) ++ ":" ++
   padStart0 2 (to_string (JNum secs)))%string.

(** Cut a string at its first colon. *)
Fixpoint cut_at_colon (s : string) : option (string * string) :=
  match s with
  | EmptyString => None
  | String c rest =>
      if Ascii.eqb c ":" then Some (EmptyString, rest)
      else match cut_at_colon rest with
           | Some (a, b) => Some (String c a, b)
           | None => None
           end
  end.

(** Read a clock [mm:ss] back into seconds. *)
Definition read_clock (s : string) : option Z :=
  match cut_at_colon s with
  | Some (m, sec) =>
      match NilZero.int_of_string m, NilZero.int_of_string sec with
      | Some dm, Some ds => Some (Z.of_int dm * 60 + Z.of_int ds)
      | _, _ => None
      end
  | None => None
  end.

(** The Recording badge follows [isRecording]; it matches the recorder
    when the flag is set exactly while the recorder records. *)
Definition badge_matches_recorder (c : Component) : Prop :=
  isRecording (current c) =
  match mediaRecorderRef c with
  | Some rec => is_recording rec
  | None => false
  end.

(** The events that can happen without the wallet: no answer of the
    camera that sets a stream, no change of account. *)
Definition without_wallet (ev : Event) : bool :=
  match ev with
  | AccountChanged _ => false
  | _ => keeps_stream ev
  end.

(** The toasts shown, in order. *)
Definition toasts (acts : list action) : list string :=
  omap (fun a => match a with Toast t => Some t | _ => None end) acts.

(** The component once the camera was granted, before any click. *)
Definition camera_ready : Component :=
  fst (step true (mount wallet) (CameraAnswer (Granted 1))).

(** The component once the camera was granted in a browser that supports
    none of the MIME types: the effect has raised 'Recording Error' and
    there is no recorder. *)
Definition camera_without_recorder : Component :=
  fst (step false (mount wallet) (CameraAnswer (Granted 1))).

(** The number of data events of a run that carry a blob that is not
    empty. *)
Definition chunks_delivered (evs : list Event) : nat :=
  length (List.filter
            (fun ev => match ev with
                       | DataAvailable size _ _ => 0 <? size
                       | _ => false
                       end) evs).

(** The wallet is disconnected while [recording_started] records. *)
Definition recording_disconnected : Component :=
  fst (step true recording_started (AccountChanged JUndef)).

End DashcamView.

(** ** BlockchainProof *)

Module BlockchainProof.

(** A processed entry of the transaction list. *)
Record Tx : Type := {
  tokenId : jsval;
  txHash : jsval;
  blockNumber : jsval;
  timestamp : jsval;
  imageCid : jsval;
  metadataUri : jsval;
  image : jsval;
  owner : jsval
}.

Inductive action : Type :=
| SetLoading (b : bool)
| SetTransactions (txs : list Tx)
| SetStats (total : nat)
| Toast (title : string)
| Console (message : string).

Definition gateway : string := "http://localhost:8080/ipfs/".

Definition placeholder : string :=
  "https://via.placeholder.com/150?text=BlockSnap+NFT".

(** The method call [v.startsWith(p)]: only strings have the method. *)
Definition call_startsWith {E} (v : jsval) (p : string) : M E bool :=
  match v with
  | JStr s => ret (startsWith p s)
  | _ => throw (TypeError "item.metadata_uri.startsWith is not a function")
  end.

(** The chain of tests that assigns [imageUrl], starting from [null]. *)
Definition imageUrl {E} (item : gmap string jsval) : M E jsval :=
  if truthy (get item "image") && is_string (get item "image") then
    ret (get item "image")
  else if truthy (js_or (get item "cid") (get item "image_cid")) then
    ret (JStr (gateway ++ to_string (js_or (get item "cid") (get item "image_cid"))))
  else
    let! ipfs :=
      (if truthy (get item "metadata_uri")
       then call_startsWith (get item "metadata_uri") "ipfs://"
       else ret false) in
    if ipfs then
      ret (JStr (gateway ++
                 replace "ipfs://" "" (to_string (get item "metadata_uri"))))
    else ret JNull.

(** The item lets [imageUrl] finish: the image, [cid] or [image_cid]
    decides the URL, or [metadata_uri] is falsy or a string, so that no
    string method is called on a value that has none. *)
Definition metadata_uri_usable (item : gmap string jsval) : bool :=
  (truthy (get item "image") && is_string (get item "image"))
  || truthy (js_or (get item "cid") (get item "image_cid"))
  || negb (truthy (get item "metadata_uri"))
  || is_string (get item "metadata_uri").

(** The image that the processed record shows for an item. *)
Definition image_choice (item : gmap string jsval) : jsval :=
  if truthy (get item "image") && is_string (get item "image")
  then get item "image"
  else if truthy (js_or (get item "cid") (get item "image_cid"))
  then JStr (gateway ++ to_string (js_or (get item "cid") (get item "image_cid")))
  else match get item "metadata_uri" with
       | JStr s =>
           if startsWith "ipfs://" s
           then JStr (gateway ++ drop_chars 7 s)
           else JStr placeholder
       | _ => JStr placeholder
       end.

Section Page.

(** [new Date(t).toISOString()] for a time [t] in milliseconds. *)
Variable toISOString : Z -> string.

(** The callback of [data.map] in [processTransactionData]; [account] is
    the connected account and [now] the current time. *)
Definition processItem {E} (account : jsval) (now : Z)
    (item : gmap string jsval) : M E Tx :=
  let! url := imageUrl item in
  let url := if negb (truthy url) then JStr placeholder else url in
  ret {| tokenId := js_or (get item "token_id")
                      (js_or (get item "tokenId") (JStr "Unknown"));
         txHash := js_or (get item "tx_hash") (get item "txHash");
         blockNumber := js_or (get item "block_number")
                          (js_or (get item "blockNumber") (JNum 0));
         timestamp := js_or (get item "timestamp") (JStr (toISOString now));
         imageCid := js_or (get item "cid")
                       (js_or (get item "image_cid")
                          (js_or (get item "imageCid") (JStr "Unknown")));
         metadataUri := js_or (get item "metadata_uri")
                          (js_or (get item "metadataUri") (JStr "Unknown"));
         image := url;
         owner := js_or (get item "owner") (js_or account (JStr "Unknown")) |}.

(** [data.map(f)]: the callback runs on the items in order and the first
    exception ends the traversal. *)
Fixpoint map_items {E A B} (f : A -> M E B) (l : list A) : M E (list B) :=
  match l with
  | [] => ret []
  | x :: rest =>
      let! y := f x in
      let! ys := map_items f rest in
      ret (y :: ys)
  end.

(** [processTransactionData(data)].  Of the statistics only the counts are
    kept here; the last block number shown next to them plays no part in
    what follows. *)
Definition processTransactionData (account : jsval) (now : Z)
    (data : list (gmap string jsval)) : M action unit :=
  let! processedData := map_items (processItem account now) data in
  emit (SetTransactions processedData) ;;;
  emit (SetStats (length processedData)).

(** [mockTransactions], built when the module is loaded, at [loadTime]. *)
Definition mockTransactions (loadTime : Z) : list (gmap string jsval) :=
  [ list_to_map
      [ ("tokenId", JNum 1);
        ("timestamp", JStr (toISOString (loadTime - 86400000 * 2)));
        ("txHash", JStr "0x3a8e7f5b2e0c5d1a9b8f7e6d5c4b3a2e1d0c9b8a7f6e5d4c3b2a1e0d9c8b7a6f5");
        ("imageCid", JStr "QmXyZ...");
        ("metadataUri", JStr "ipfs://QmAbc...");
        ("blockNumber", JNum 12345678);
        ("image", JStr "https://images.unsplash.com/photo-1579353977828-2a4eab540b9a?ixlib=rb-1.2.1&ixid=MnwxMjA3fDB8MHxzZWFyY2h8MXx8c2VjdXJpdHklMjBjYW1lcmF8ZW58MHx8MHx8&w=1000&q=80") ];
    list_to_map
      [ ("tokenId", JNum 2);
        ("timestamp", JStr (toISOString (loadTime - 86400000)));
        ("txHash", JStr "0x7f6e5d4c3b2a1e0d9c8b7a6f5e4d3c2b1a0e9d8c7b6a5f4e3d2c1b0a9e8d7f6e5");
        ("imageCid", JStr "QmABC...");
        ("metadataUri", JStr "ipfs://QmXyz...");
        ("blockNumber", JNum 12345679);
        ("image", JStr "https://images.unsplash.com/photo-1566378246598-5b11a0d486cc?ixlib=rb-1.2.1&ixid=MnwxMjA3fDB8MHxzZWFyY2h8OXx8c2VjdXJpdHklMjBjYW1lcmF8ZW58MHx8MHx8&w=1000&q=80") ];
    list_to_map
      [ ("tokenId", JNum 3);
        ("timestamp", JStr (toISOString loadTime));
        ("txHash", JStr "0xd4c3b2a1e0d9c8b7a6f5e4d3c2b1a0e9d8c7b6a5f4e3d2c1b0a9e8d7f6e5d4c3");
        ("imageCid", JStr "QmDEF...");
        ("metadataUri", JStr "ipfs://QmGhi...");
        ("blockNumber", JNum 12345680);
        ("image", JStr "https://images.unsplash.com/photo-1580785692949-7b5a7ba2e3ee?ixlib=rb-1.2.1&ixid=MnwxMjA3fDB8MHxzZWFyY2h8MTJ8fHNlY3VyaXR5JTIwY2FtZXJhfGVufDB8fDB8fA%3D%3D&w=1000&q=80") ] ].

(** The answers of the verification server to the requests of the page.
    A body is [None] when the field read from it ([data.nfts],
    [data.transactions], [data.results], or [data] itself for a
    verification) is missing or falsy, and the array or object otherwise. *)
Record Backend : Type := {
  nfts : string -> http (option (list (gmap string jsval)));
  recent_transactions : http (option (list (gmap string jsval)));
  query_media : http (option (list (gmap string jsval)));
  verify_tx : string -> http (option (gmap string jsval))
}.

Definition api : string := "http://localhost:5000".

(** The NFTs of the connected wallet ([nftData]). *)
Definition wallet_nfts (active : bool) (account : jsval) (be : Backend)
  : M action (list (gmap string jsval)) :=
  if active && truthy account then
    try_catch
      (let! data := await (api ++ "/nfts/" ++ to_string account)
                      (nfts be (to_string account)) in
       match data with
       | Some l => emit (Console "Fetched wallet NFTs:") ;;; ret l
       | None => ret []
       end)
      (fun nftError => emit (Console "Error fetching wallet NFTs:") ;;; ret [])
  else ret [].

(** The hashes pushed from [/api/recent-transactions]. *)
Definition recent_hashes (be : Backend) : M action (list jsval) :=
  try_catch
    (let! data := await (api ++ "/api/recent-transactions")
                    (recent_transactions be) in
     ret (match data with
          | Some txs => map (fun tx => get tx "hash") txs
          | None => []
          end))
    (fun recentTxError =>
       emit (Console "Error fetching recent transactions:") ;;; ret []).

(** The fallback on [/api/query-media], used when no hash was found. *)
Definition media_hashes (be : Backend) : M action (list jsval) :=
  try_catch
    (let! data := await (api ++ "/api/query-media") (query_media be) in
     ret (match data with
          | Some results =>
              List.filter truthy
                (map (fun media => get media "tx_hash") results)
          | None => []
          end))
    (fun queryError => emit (Console "Error querying media:") ;;; ret []).

Definition tx_hashes (be : Backend) : M action (list jsval) :=
  let! txHashes := recent_hashes be in
  if (length txHashes =? 0)%nat then media_hashes be else ret txHashes.

(** One turn of the loop over [txHashes.slice(0, 5)]. *)
Definition verify_one (be : Backend) (txHash : jsval)
  : M action (list (gmap string jsval)) :=
  try_catch
    (let! data := await (api ++ "/api/verify/tx/" ++ to_string txHash)
                    (verify_tx be (to_string txHash)) in
     ret (match data with
          | Some d => if truthy (get d "exists_on_blockchain") then [d] else []
          | None => []
          end))
    (fun txError => emit (Console "Error fetching transaction") ;;; ret []).

Fixpoint verify_all (be : Backend) (hashes : list jsval)
  : M action (list (gmap string jsval)) :=
  match hashes with
  | [] => ret []
  | h :: rest =>
      let! d := verify_one be h in
      let! ds := verify_all be rest in
      ret (d ++ ds)%list
  end.

(** The test of the loop: the answer exists and its
    [exists_on_blockchain] is truthy. *)
Definition verified (be : Backend) (txHash : jsval) : bool :=
  match verify_tx be (to_string txHash) with
  | Resolved (Some d) => truthy (get d "exists_on_blockchain")
  | _ => false
  end.

Definition use_mock (account : jsval) (now loadTime : Z) (why : string)
  : M action unit :=
  emit (Console why) ;;;
  processTransactionData account now (mockTransactions loadTime) ;;;
  emit (Toast "Using sample data").

(** [fetchData()] *)
Definition fetchData (active : bool) (account : jsval) (now loadTime : Z)
    (be : Backend) : M action unit :=
  emit (SetLoading true) ;;;
  try_finally
    (try_catch
       (let! nftData := wallet_nfts active account be in
        if (0 <? length nftData)%nat then
          processTransactionData account now nftData
        else
          try_catch
            (let! txHashes := tx_hashes be in
             let! txDetails := verify_all be (take 5 txHashes) in
             if (0 <? length txDetails)%nat then
               processTransactionData account now txDetails
             else
               use_mock account now loadTime "Using mock transaction data")
            (fun error =>
               emit (Console "Error fetching transaction data:") ;;;
               use_mock account now loadTime
                 "Using mock transaction data due to error"))
       (fun error =>
          emit (Console "Error in blockchain proof component:") ;;;
          use_mock account now loadTime
            "Using mock transaction data due to error"))
    (emit (SetLoading false)).

End Page.

(** A server that knows one transaction hash and reports that it is not
    on the blockchain; the wallet holds no NFT. *)
Definition backend_without_media : Backend :=
  {| nfts := fun _ => Resolved (Some []);
     recent_transactions :=
       Resolved (Some [ {[ "hash" := JStr "0x00ab" ]} ]);
     query_media := Rejected;
     verify_tx := fun _ =>
       Resolved (Some {[ "exists_on_blockchain" := JBool false ]}) |}.

(** The state cells of the page and what it shows for them. *)
Record UI : Type := {
  transactions : list Tx;
  loading : bool;
  totalNFTs : nat;
  toasts : list string
}.

Definition initial : UI :=
  {| transactions := []; loading := true; totalNFTs := 0%nat; toasts := [] |}.

Definition apply (ui : UI) (a : action) : UI :=
  match a with
  | SetLoading b =>
      {| transactions := transactions ui; loading := b;
         totalNFTs := totalNFTs ui; toasts := toasts ui |}
  | SetTransactions txs =>
      {| transactions := txs; loading := loading ui;
         totalNFTs := totalNFTs ui; toasts := toasts ui |}
  | SetStats n =>
      {| transactions := transactions ui; loading := loading ui;
         totalNFTs := n; toasts := toasts ui |}
  | Toast t =>
      {| transactions := transactions ui; loading := loading ui;
         totalNFTs := totalNFTs ui; toasts := (toasts ui ++ [t])%list |}
  | Console _ => ui
  end.

Definition is_console (a : action) : bool :=
  match a with Console _ => true | _ => false end.

Inductive View : Type :=
| Spinner
| TransactionFlow (txs : list Tx)
| NoTransactionsFound.

(** The branch of the JSX that the transaction panel takes. *)
Definition view (ui : UI) : View :=
  if loading ui then Spinner
  else if (0 <? length (transactions ui))%nat then TransactionFlow (transactions ui)
  else NoTransactionsFound.


(** *** What the panel shows of a record *)

Definition NETWORK_CHAIN_ID : Z := 24750.

(** [formatAddress(address)]; only strings have [substring]. *)
Definition formatAddress {E} (address : jsval) : M E string :=
  if negb (truthy address) then ret ""
  else match address with
       | JStr s =>
           ret (substring s 0 6 ++ "..." ++
                substring_from s (Z.of_nat (String.length s) - 4))%string
       | _ => throw (TypeError "address.substring is not a function")
       end.

(** [formatTxHash(hash)] *)
Definition formatTxHash {E} (hash : jsval) : M E string :=
  if negb (truthy hash) then ret ""
  else match hash with
       | JStr s =>
           ret (substring s 0 10 ++ "..." ++
                substring_from s (Z.of_nat (String.length s) - 8))%string
       | _ => throw (TypeError "hash.substring is not a function")
       end.

(** [getExplorerUrl(txHash)] *)
Definition getExplorerUrl (txHash : jsval) : string :=
  ("https://explorer.buildbear.io/tx/" ++ to_string txHash ++
   "?chainId=" ++ to_string (JNum NETWORK_CHAIN_ID))%string.

(** The answers that the loop over the hashes keeps, in the order of the
    hashes. *)
Definition kept_answers (be : Backend) (hashes : list jsval)
  : list (gmap string jsval) :=
  flat_map
    (fun h =>
       match verify_tx be (to_string h) with
       | Resolved (Some d) =>
           if truthy (get d "exists_on_blockchain") then [d] else []
       | _ => []
       end)
    hashes.



(** A server whose wallet answer holds an NFT with a numeric
    [metadata_uri] and nothing else to build an image from. *)
Definition backend_with_odd_nft : Backend :=
  {| nfts := fun _ => Resolved (Some [ {[ "metadata_uri" := JNum 5 ]} ]);
     recent_transactions := Rejected;
     query_media := Rejected;
     verify_tx := fun _ => Rejected |}.

End BlockchainProof.

(** ** Gallery: the chunks of a video session *)

Module Gallery.

Record Chunk : Type := {
  sequence_number : Z;
  video_cid : string
}.

(** [chunks.sort((a, b) => a.sequence_number - b.sequence_number)]; the
    sort of an array is stable. *)
Fixpoint insert (c : Chunk) (l : list Chunk) : list Chunk :=
  match l with
  | [] => [c]
  | d :: rest =>
      if sequence_number c <=? sequence_number d then c :: d :: rest
      else d :: insert c rest
  end.

Definition sort_chunks (l : list Chunk) : list Chunk := foldr insert [] l.

(** The displayed order is strict when every chunk comes before all the
    chunks of greater position and no two share a sequence number. *)
Definition strictly_ordered (l : list Chunk) : Prop :=
  StronglySorted (fun a b => sequence_number a < sequence_number b) l.

(** The sequence numbers [0, 1, ..., n-1]. *)
Definition numbered_from_zero (l : list Z) : Prop :=
  l = map Z.of_nat (seq 0 (length l)).

(** The order that the sort establishes. *)
Definition by_number (a b : Chunk) : Prop :=
  sequence_number a <= sequence_number b.

(** *** fetchMedia and the clips of a session *)

(** A video session of the answer; [chunks] is [None] when the session
    carries none. *)
Record Session : Type := {
  session_id : jsval;
  chunks : option (list Chunk)
}.

Record Media : Type := {
  photos : list (gmap string jsval);
  videos : list (gmap string jsval);
  videoSessions : list Session
}.

(** The bodies of [/nfts/<account>] and [/video-sessions/<account>]: JSON
    objects whose [nfts] and [sessions], when there, are arrays. *)
Record NftsData : Type := {
  nfts : option (list (gmap string jsval));
  nfts_error : jsval
}.

Record SessionsData : Type := {
  sessions : option (list Session);
  sessions_error : jsval
}.

Record Server : Type := {
  nfts_of : string -> reply NftsData;
  sessions_of : string -> reply SessionsData
}.

Inductive action : Type :=
| Console (line : string)
| Get (url : string)
| SetLoading (b : bool)
| SetError (e : option string)
| SetMedia (m : Media)
| SetNoMediaMessage (m : option string)
| Toast (title description : string).

Definition no_media : Media :=
  {| photos := []; videos := []; videoSessions := [] |}.

(** [{ ...session, chunks: (session.chunks || []).sort(...) }] *)
Definition sorted_session (session : Session) : Session :=
  {| session_id := session_id session;
     chunks := Some (sort_chunks (default [] (chunks session))) |}.

Definition count {A} (l : list A) : string :=
  to_string (JNum (Z.of_nat (length l))).

(** The two [if (....data.error)] blocks. *)
Definition report (which : string) (error : jsval) : M action unit :=
  if truthy error then
    emit (Console ("Backend reported an error (" ++ which ++ "):")) ;;;
    emit (Toast "Warning" ("Server reported: " ++ to_string error))
  else ret tt.

(** [fetchMedia(account)] *)
Definition fetchMedia (account : jsval) (server : Server) : M action unit :=
  if negb (truthy account) then
    emit (Console "No account provided to fetchMedia")
  else
    emit (SetLoading true) ;;;
    emit (SetError None) ;;;
    try_finally
      (try_catch
         (emit (Console ("Fetching media for account: " ++ to_string account)) ;;;
          emit (Get ("http://localhost:5000/nfts/" ++ to_string account)) ;;;
          let! nftsData := settle (nfts_of server (to_string account)) in
          emit (Console "NFTs API Response:") ;;;
          emit (Get ("http://localhost:5000/video-sessions/" ++
                     to_string account)) ;;;
          let! sessionsData :=
            settle (sessions_of server (to_string account)) in
          emit (Console "Video Sessions API Response:") ;;;
          let allNfts := default [] (nfts nftsData) in
          let photos :=
            List.filter (fun nft => is_literal "photo" (get nft "type"))
              allNfts in
          let videos :=
            List.filter (fun nft => is_literal "video" (get nft "type"))
              allNfts in
          let videoSessions := default [] (sessions sessionsData) in
          let sortedSessions := map sorted_session videoSessions in
          emit (SetMedia {| photos := photos; videos := videos;
                            videoSessions := sortedSessions |}) ;;;
          emit (Console ("Loaded " ++ count photos ++ " photos, " ++
                         count videos ++ " videos, and " ++
                         count sortedSessions ++ " video sessions")) ;;;
          (if Nat.eqb (length photos) 0 && Nat.eqb (length videos) 0 &&
              Nat.eqb (length sortedSessions) 0
           then emit (SetNoMediaMessage
                        (Some "No media found for this wallet. Try capturing some photos first!"))
           else emit (SetNoMediaMessage None)) ;;;
          report "NFTs" (nfts_error nftsData) ;;;
          report "Sessions" (sessions_error sessionsData))
         (fun err =>
            emit (Console "Error fetching media:") ;;;
            emit (SetError (Some ("Error fetching media: " ++ message_of err))) ;;;
            emit (SetMedia no_media) ;;;
            emit (SetNoMediaMessage
                    (Some "Failed to load media. Please try again later."))))
      (emit (SetLoading false)).

(** The state of the page that [fetchMedia] writes. *)
Record State : Type := {
  media : Media;
  loading : bool;
  error : option string;
  noMediaMessage : option string;
  toasts : list string
}.

(** The [useState] initial values. *)
Definition initial : State :=
  {| media := no_media; loading := true; error := None;
     noMediaMessage := None; toasts := [] |}.

Definition apply (st : State) (a : action) : State :=
  match a with
  | Console _ | Get _ => st
  | SetLoading b =>
      {| media := media st; loading := b; error := error st;
         noMediaMessage := noMediaMessage st; toasts := toasts st |}
  | SetError e =>
      {| media := media st; loading := loading st; error := e;
         noMediaMessage := noMediaMessage st; toasts := toasts st |}
  | SetMedia m =>
      {| media := m; loading := loading st; error := error st;
         noMediaMessage := noMediaMessage st; toasts := toasts st |}
  | SetNoMediaMessage m =>
      {| media := media st; loading := loading st; error := error st;
         noMediaMessage := m; toasts := toasts st |}
  | Toast _ description =>
      {| media := media st; loading := loading st; error := error st;
         noMediaMessage := noMediaMessage st;
         toasts := (toasts st ++ [description])%list |}
  end.

Definition requests (acts : list action) : list string :=
  omap (fun a => match a with Get url => Some url | _ => None end) acts.

(** What [renderVideoSession] shows of a clip: its React key and its
    caption. *)
Record Clip : Type := {
  key : Z;
  caption : string;
  src : string
}.

(** [session.chunks.map(chunk => ...)] in [renderVideoSession]. *)
Definition renderVideoSession {E} (session : Session) : M E (list Clip) :=
  match chunks session with
  | None =>
      throw (TypeError "Cannot read properties of undefined (reading 'map')")
  | Some cs =>
      ret (map (fun chunk =>
                  {| key := sequence_number chunk;
                     caption := "Clip " ++
                                to_string (JNum (sequence_number chunk + 1));
                     src := "http://127.0.0.1:8080/ipfs/" ++ video_cid chunk |})
             cs)
  end.

(** A server that knows one session of one wallet, with its chunks out of
    order, and a photo and a ticket among the wallet's NFTs. *)
Definition example_server : Server :=
  {| nfts_of := fun _ =>
       Answers {| nfts := Some [ {[ "type" := JStr "photo" ]};
                                 {[ "type" := JStr "ticket" ]} ];
                  nfts_error := JUndef |};
     sessions_of := fun _ =>
       Answers {| sessions :=
                    Some [ {| session_id := JNum 1;
                              chunks := Some [ {| sequence_number := 2;
                                                  video_cid := "QmC" |};
                                               {| sequence_number := 0;
                                                  video_cid := "QmA" |};
                                               {| sequence_number := 1;
                                                  video_cid := "QmB" |} ] |} ];
                  sessions_error := JUndef |} |}.

(** A server that cannot be reached. *)
Definition unreachable_server : Server :=
  {| nfts_of := fun _ => Fails "Network Error";
     sessions_of := fun _ => Fails "Network Error" |}.

(** The page as a wallet with one photo left it. *)
Definition page_with_a_photo : State :=
  {| media := {| photos := [ {[ "type" := JStr "photo" ]} ];
                 videos := []; videoSessions := [] |};
     loading := false; error := None; noMediaMessage := None;
     toasts := [] |}.

End Gallery.

(** ** Navbar: connecting and disconnecting the wallet *)

Module Navbar.

(** What a rejected request or a [throw] carries, as far as the handlers
    read it: the [code] and the [message] of the error. *)
Record Thrown : Type := {
  code : jsval;
  message : jsval
}.

(** [new Error(message)] *)
Definition Error (msg : string) : Thrown :=
  {| code := JUndef; message := JStr msg |}.

Inductive status : Type := success | error | warning | info.

(** What the bar itself does, in order.  [Request] is a call of
    [window.ethereum.request] written in the component; [Activate] and
    [Deactivate] are the calls of the library's [activate(injected)] and
    [deactivate()], whose own traffic with the wallet (the connector
    asks it for the accounts and the chain) is not part of these
    effects. *)
Inductive effect : Type :=
| Log (line : string)
| LogError (line : string) (e : Thrown)
| Request (method : string) (chainId : option string)
| Sleep (ms : Z)
| Activate
| Deactivate
| Toast (title : string) (description : jsval) (st : status).

(** Computations of the navigation bar: effects in order, then a return or
    a thrown error. *)
Definition N (A : Type) : Type := (list effect * (Thrown + A))%type.

Definition done {A} (a : A) : N A := ([], inr a).

Definition raise {A} (e : Thrown) : N A := ([], inl e).

Definition say (e : effect) : N unit := ([e], inr tt).

Definition and_then {A B} (m : N A) (k : A -> N B) : N B :=
  match m with
  | (es, inl x) => (es, inl x)
  | (es, inr a) => let '(es', r) := k a in ((es ++ es')%list, r)
  end.

(** [try { body } catch (error) { handler }] *)
Definition catch {A} (body : N A) (handler : Thrown -> N A) : N A :=
  match body with
  | (es, inl x) => let '(es', r) := handler x in ((es ++ es')%list, r)
  | (es, inr a) => (es, inr a)
  end.

Local Notation "m ;> k" := (and_then m (fun _ => k))
  (at level 100, k at level 200, right associativity).

(** How the promise of [activate(injected, onError)] settles.  Before it
    does, the library may hand errors to [onError]; that handler is an
    async function, so what it throws rejects its own promise and reaches
    the caller of [activate] only if the library passes it on, as a
    rejection. *)
Inductive Activation : Type :=
| Resolves (reported : list Thrown)
| Rejects (reported : list Thrown) (e : Thrown).

(** The wallet extension and the web3-react context around the bar. *)
Record Env : Type := {
  ethereum : bool;
  selectedAddress : jsval;
  eth_requestAccounts : option Thrown;
  wallet_switchEthereumChain : option Thrown;
  wallet_addEthereumChain : option Thrown;
  activation : Activation;
  deactivation : option Thrown
}.

(** [await window.ethereum.request({ method, params })]; the answer is
    [Some e] when the request is rejected with [e]. *)
Definition request (method : string) (chainId : option string)
    (answer : option Thrown) : N unit :=
  say (Request method chainId) ;>
  match answer with
  | Some e => raise e
  | None => done tt
  end.

(** The handler that [connectWallet] passes to [activate]. *)
Definition onError (e : Thrown) : N unit :=
  say (LogError "Activation error:" e) ;>
  if is_number (-32002) (code e) then
    say (Toast "Pending Request"
           (JStr "Please check MetaMask for pending requests") warning)
  else raise e.

(** [await activate(injected, onError)]: the effects of the handler calls,
    then the settlement. *)
Definition activate (handler : option (Thrown -> N unit)) (a : Activation)
  : N unit :=
  let reported := match a with Resolves r => r | Rejects r _ => r end in
  let handled :=
    match handler with
    | Some h => flat_map (fun e => fst (h e)) reported
    | None => []
    end in
  (Activate :: handled,
   match a with
   | Resolves _ => inr tt
   | Rejects _ e => inl e
   end).

(** [checkAndConnect], run when the bar mounts. *)
Definition checkAndConnect (env : Env) : N unit :=
  if ethereum env && truthy (selectedAddress env) then
    catch
      (say (Log "Attempting to reconnect wallet automatically...") ;>
       activate None (activation env) ;>
       say (Log "Wallet reconnected automatically"))
      (fun e => say (LogError "Auto-connect error:" e))
  else done tt.

(** The [try] around [wallet_switchEthereumChain]. *)
Definition switch_network (env : Env) : N unit :=
  catch
    (request "wallet_switchEthereumChain"
       (Some Connectors.connectWallet_chainId)
       (wallet_switchEthereumChain env))
    (fun switchError =>
       if is_number 4902 (code switchError) then
         catch
           (request "wallet_addEthereumChain"
              (Some Connectors.connectWallet_chainId)
              (wallet_addEthereumChain env))
           (fun addError =>
              say (LogError "Error adding network:" addError) ;>
              raise (Error "Failed to add BuildBear network to MetaMask"))
       else
         say (LogError "Error switching network:" switchError) ;>
         raise switchError).

(** [connectWallet] *)
Definition connectWallet (env : Env) : N unit :=
  say (Log "Attempting to connect wallet...") ;>
  catch
    ((if negb (ethereum env)
      then raise (Error "Please install MetaMask to connect your wallet")
      else done tt) ;>
     request "eth_requestAccounts" None (eth_requestAccounts env) ;>
     switch_network env ;>
     say (Sleep 1000) ;>
     activate (Some onError) (activation env) ;>
     say (Log "Wallet connected successfully") ;>
     say (Toast "Wallet Connected"
            (JStr "Successfully connected to MetaMask") success))
    (fun e =>
       say (LogError "Connection error:" e) ;>
       say (Toast "Connection Error"
              (js_or (message e) (JStr "Failed to connect wallet")) error)).

(** [disconnectWallet] *)
Definition disconnectWallet (env : Env) : N unit :=
  catch
    (say Deactivate ;>
     match deactivation env with
     | Some e => raise e
     | None => done tt
     end ;>
     say (Toast "Wallet Disconnected" JUndef info))
    (fun e =>
       say (LogError "Error disconnecting wallet:" e) ;>
       say (Toast "Error" (JStr "Failed to disconnect wallet") error)).

(** The text of the button of the bar. *)
Definition accountLabel {E} (active : bool) (account : jsval) : M E string :=
  if active then
    if truthy account then
      match account with
      | JStr s =>
          ret (substring s 0 6 ++ "..." ++ substring_from s 38)%string
      | _ => throw (TypeError "account.substring is not a function")
      end
    else ret "Connected"
  else ret "Connect Wallet".

Definition toasts (es : list effect) : list string :=
  omap (fun e => match e with Toast title _ _ => Some title | _ => None end)
    es.

(** The methods that the component itself requests of the wallet. *)
Definition requests (es : list effect) : list string :=
  omap (fun e => match e with Request method _ => Some method | _ => None end)
    es.

Definition activated (es : list effect) : bool :=
  existsb (fun e => match e with Activate => true | _ => false end) es.

(** The steps before [activate] have gone through: the wallet is there, it
    grants the accounts, and the chain is selected, at once or after it
    has been added. *)
Definition network_ready (env : Env) : bool :=
  ethereum env &&
  match eth_requestAccounts env with
  | Some _ => false
  | None =>
      match wallet_switchEthereumChain env with
      | None => true
      | Some e =>
          is_number 4902 (code e) &&
          match wallet_addEthereumChain env with
          | None => true
          | Some _ => false
          end
      end
  end.

(** The promise of [activate] resolves. *)
Definition resolves (a : Activation) : bool :=
  match a with Resolves _ => true | Rejects _ _ => false end.

(** The errors that the library hands to [onError]. *)
Definition reported_errors (a : Activation) : list Thrown :=
  match a with Resolves r => r | Rejects r _ => r end.

(** How many of them say that a request is pending in the wallet. *)
Definition pending (a : Activation) : nat :=
  length (List.filter (fun e => is_number (-32002) (code e))
            (reported_errors a)).

(** A wallet that does not know the chain yet and adds it, and a library
    that reports a failed activation to [onError] and resolves. *)
Definition example_env : Env :=
  {| ethereum := true;
     selectedAddress := JNull;
     eth_requestAccounts := None;
     wallet_switchEthereumChain :=
       Some {| code := JNum 4902; message := JStr "Unrecognized chain ID" |};
     wallet_addEthereumChain := None;
     activation :=
       Resolves [ {| code := JUndef;
                     message := JStr "Unsupported chain id: 24750." |} ];
     deactivation := None |}.

End Navbar.

(** ** VerifyMedia: verifying a transaction hash or a file *)

Module VerifyMedia.

Inductive action : Type :=
| Get (url : string)
| PostFile (url : string)
| SetLoading (b : bool)
| SetVerificationResult (data : option (gmap string jsval))
| Toast (title description : string).

(** The verification server; a body is a JSON object or [null]. *)
Record Server : Type := {
  verify_tx : string -> reply (option (gmap string jsval));
  verify_file : reply (option (gmap string jsval))
}.

(** [verifyFile(file)] *)
Definition verifyFile (server : Server) : M action unit :=
  try_finally
    (try_catch
       (emit (SetLoading true) ;;;
        emit (PostFile "http://localhost:5000/verify/file") ;;;
        let! data := settle (verify_file server) in
        emit (SetVerificationResult data))
       (fun e => emit (Toast "Error" (message_of e))))
    (emit (SetLoading false)).

(** [verifyTxHash()], with the content of the input field. *)
Definition verifyTxHash (txHashInput : string) (server : Server)
  : M action unit :=
  if negb (truthy (JStr txHashInput)) then
    emit (Toast "Error" "Please enter a transaction hash")
  else
    try_finally
      (try_catch
         (emit (SetLoading true) ;;;
          emit (Get ("http://localhost:5000/api/verify/tx/" ++ txHashInput)) ;;;
          let! data := settle (verify_tx server txHashInput) in
          emit (SetVerificationResult data))
         (fun e =>
            emit (Toast "Error"
                    (to_string
                       (js_or (JStr (message_of e))
                          (JStr "Failed to verify transaction hash"))))))
      (emit (SetLoading false)).

Record State : Type := {
  verificationResult : option (gmap string jsval);
  loading : bool;
  toasts : list string
}.

Definition initial : State :=
  {| verificationResult := None; loading := false; toasts := [] |}.

Definition apply (st : State) (a : action) : State :=
  match a with
  | Get _ | PostFile _ => st
  | SetLoading b =>
      {| verificationResult := verificationResult st; loading := b;
         toasts := toasts st |}
  | SetVerificationResult data =>
      {| verificationResult := data; loading := loading st;
         toasts := toasts st |}
  | Toast _ description =>
      {| verificationResult := verificationResult st; loading := loading st;
         toasts := (toasts st ++ [description])%list |}
  end.

Definition requests (acts : list action) : list string :=
  omap (fun a => match a with
                 | Get url | PostFile url => Some url
                 | _ => None
                 end) acts.

(** The children that the result box hands to its [VStack], top to
    bottom: a labelled line, or a value that is no element (the falsy
    left operand of an [&&]).  What the stack does with a child that is
    no element belongs to the UI library and is not modelled. *)
Inductive Item : Type :=
| Row (label text : string)
| Leftover (v : jsval).

(** A value as the text of a line, [<Text>{v}</Text>]: strings and
    numbers are text, booleans, [null] and [undefined] leave nothing, an
    object is refused. *)
Definition child {E} (v : jsval) : M E string :=
  match v with
  | JStr s => ret s
  | JNum _ => ret (to_string v)
  | JObj _ => throw (TypeError "Objects are not valid as a React child")
  | _ => ret ""
  end.

(** [{v && content}]: the content when [v] is truthy; else the
    expression is the value [v] itself and no line is made. *)
Definition when {E} (v : jsval) (content : M E Item) : M E (list Item) :=
  if truthy v then
    let! item := content in ret [item]
  else ret [Leftover v].

(** [{v && <HStack><Badge>label</Badge><Text>{v}</Text></HStack>}] *)
Definition field {E} (result : gmap string jsval) (k label : string)
  : M E (list Item) :=
  when (get result k)
    (let! text := child (get result k) in ret (Row label text)).

Definition status_text (result : gmap string jsval) : string :=
  if truthy (get result "exists_on_blockchain") then
    if truthy (get result "owner")
    then "Verified - Owned by " ++ to_string (get result "owner")
    else "Verified - Owner information unavailable"
  else "Not Found".

Definition owner_tag {E} (result : gmap string jsval) : M E (list Item) :=
  when (get result "owner")
    match get result "owner" with
    | JStr s =>
        ret (Row "Owner"
               (substring s 0 6 ++ "..." ++ substring_from s 38))
    | _ => throw (TypeError "verificationResult.owner.substring is not a function")
    end.

(** The fields that the box shows under a badge, with their labels. *)
Definition labelled_fields : list (string * string) :=
  [ ("tx_hash", "Transaction Hash"); ("verified_by", "Verified by");
    ("media_type", "Media Type"); ("token_id", "Token ID");
    ("session_id", "Session ID"); ("cid", "Content ID (IPFS)");
    ("sequence_number", "Sequence Number"); ("metadata_uri", "Metadata URI");
    ("function", "Function"); ("message", "Message") ].

(** The children of the result box, top to bottom. *)
Definition result_box {E} (st : State) : M E (list Item) :=
  match verificationResult st with
  | Some result =>
      if negb (loading st) then
        let! tx_hash := field result "tx_hash" "Transaction Hash" in
        let! verified_by := field result "verified_by" "Verified by" in
        let! media_type := field result "media_type" "Media Type" in
        let! owner := owner_tag result in
        let! token_id := field result "token_id" "Token ID" in
        let! session_id := field result "session_id" "Session ID" in
        let! cid := field result "cid" "Content ID (IPFS)" in
        let! sequence_number :=
          field result "sequence_number" "Sequence Number" in
        let! metadata_uri := field result "metadata_uri" "Metadata URI" in
        let! function := field result "function" "Function" in
        let! message := field result "message" "Message" in
        ret (tx_hash ++ [Row "Blockchain Status" (status_text result)] ++
             verified_by ++ media_type ++ owner ++ token_id ++ session_id ++
             cid ++ sequence_number ++ metadata_uri ++ function ++ message)%list
      else ret []
  | None => ret []
  end.

(** The answer for the first chunk of a video session. *)
Definition first_chunk_result : gmap string jsval :=
  list_to_map [ ("exists_on_blockchain", JBool true);
                ("media_type", JStr "video_chunk");
                ("owner", JStr "0x71C7656EC7ab88b098defB751B7401B5f6d8976F");
                ("session_id", JNum 7);
                ("sequence_number", JNum 0);
                ("cid", JStr "QmTest123") ].

End VerifyMedia.

(** ** The transaction resolver of the verification server *)

Module Resolver.

(** Modelled from the spec: the classifications of section 4.1 (the
    resolver itself is server code outside the sources at hand). *)
Inductive MediaType : Type :=
| photo
| video_chunk
| video_session
| contract_interaction.

(** Modelled from the spec: what the resolver reads of a transaction, its
    target address and its input data. *)
Record Transaction : Type := {
  to : string;
  input : string
}.

(** Modelled from the spec: an event log of a receipt, with the fields it
    may carry (owner, token id, CID, session id). *)
Record Log : Type := {
  event : string;
  log_owner : option string;
  log_token_id : option Z;
  log_cid : option string;
  log_session_id : option Z
}.

(** Modelled from the spec: the VerificationResult of section 3. *)
Record VerificationResult : Type := {
  exists_on_blockchain : bool;
  media_type : option MediaType;
  function : option string;
  owner : option string;
  token_id : option Z;
  cid : option string;
  session_id : option Z;
  message : option string
}.

(** A resolver either returns a result or fails with an exception. *)
Inductive Outcome : Type :=
| Returned (r : VerificationResult)
| Raised (what : string).

Section Resolver.

(** The address of the application's contract. *)
Variable contract_address : string.

(** The fixed table of known selectors: for each, the classification and
    the name of the event that carries its fields. *)
Variable selectors : list (string * (MediaType * string)).

(** The chain client: the transaction and the logs of its receipt, for
    the hashes the chain knows. *)
Variable chain : string -> option (Transaction * list Log).

(** Modelled from the spec: the result for a hash unknown to the chain, a
    definitive "does not exist" without classification. *)
Definition does_not_exist : VerificationResult :=
  {| exists_on_blockchain := false; media_type := None; function := None;
     owner := None; token_id := None; cid := None; session_id := None;
     message := Some "Transaction does not exist" |}.

(** Modelled from the spec: the "not found" result for a transaction whose
    target is not the application's contract. *)
Definition not_found : VerificationResult :=
  {| exists_on_blockchain := false; media_type := None; function := None;
     owner := None; token_id := None; cid := None; session_id := None;
     message := Some "not found" |}.

(** Modelled from the spec: the fallback "contract interaction, type
    unknown". *)
Definition unknown_interaction : VerificationResult :=
  {| exists_on_blockchain := true; media_type := Some contract_interaction;
     function := Some "unknown"; owner := None; token_id := None;
     cid := None; session_id := None; message := None |}.

(** Modelled from the spec: the selector is the leading four bytes of the
    input data, that is [0x] and eight hexadecimal digits. *)
Definition selector (tx : Transaction) : string :=
  String.substring 0 10 (input tx).

Definition known_selector (tx : Transaction) : option (MediaType * string) :=
  snd <$> List.find (fun e => String.eqb (fst e) (selector tx)) selectors.

(** Modelled from the spec: the structured fields are read from the
    emitted log, which is authoritative, never from the input data. *)
Definition classified (kind : MediaType) (l : Log) : VerificationResult :=
  {| exists_on_blockchain := true; media_type := Some kind;
     function := None; owner := log_owner l; token_id := log_token_id l;
     cid := log_cid l; session_id := log_session_id l; message := None |}.

(** Modelled from the spec: the transaction resolver of section 4.1 (look
    the hash up, compare the target with the contract, classify by
    selector, take the fields from the matching log, and fall back to an
    unknown contract interaction). *)
Definition resolve (tx_hash : string) : Outcome :=
  match chain tx_hash with
  | None => Returned does_not_exist
  | Some (tx, logs) =>
      if negb (String.eqb (to tx) contract_address) then Returned not_found
      else
        match known_selector tx with
        | Some (kind, ev) =>
            match List.find (fun l => String.eqb (event l) ev) logs with
            | Some l => Returned (classified kind l)
            | None => Returned unknown_interaction
            end
        | None => Returned unknown_interaction
        end
  end.

End Resolver.

End Resolver.

(** ** The progressive block-range scanner of the verification server *)

Module Scanner.

(** Modelled from the spec: a transfer log as returned by [eth_getLogs]
    (the scanner itself is server code outside the sources at hand): the
    block it is in, the receiving owner, the token. *)
Record Transfer : Type := {
  block : nat;
  recipient : string;
  token : nat
}.

(** Modelled from the spec: a chain client, with the head block, the
    logs of the chain, and the largest block range it answers in one
    query, if it has such a cap. *)
Record Provider : Type := {
  head : nat;
  logs : list Transfer;
  max_range : option nat
}.

Definition accepts (p : Provider) (n : nat) : bool :=
  match max_range p with
  | None => true
  | Some cap => (n <=? cap)%nat
  end.

Definition in_window (p : Provider) (n : nat) (l : Transfer) : bool :=
  (head p <? block l + n)%nat && (block l <=? head p)%nat.

(** Modelled from the spec: one query over the window of [n] blocks that
    ends at the current head; [None] when the provider rejects the range. *)
Definition query (p : Provider) (owner : string) (n : nat)
  : option (list nat) :=
  if accepts p n then
    Some (map token
            (List.filter
               (fun l => in_window p n l && String.eqb (recipient l) owner)
               (logs p)))
  else None.

Inductive ScanResult : Type :=
| Tokens (ts : list nat)
| Unavailable.

(** Modelled from the spec: the scanner of section 4.2.  The windows are
    tried from the largest to the smallest; the first answer is the result
    and, below the smallest, the result is unavailable. *)
Fixpoint scan (p : Provider) (owner : string) (windows : list nat)
  : ScanResult :=
  match windows with
  | [] => Unavailable
  | n :: smaller =>
      match query p owner n with
      | Some ts => Tokens ts
      | None => scan p owner smaller
      end
  end.













End Scanner.

(** * Properties *)

(** ** The wallet connector *)

Section ConnectorFacts.
Import Connectors.

Lemma supported_iff (c : Z) : supported c = true <-> c = 24578 \/ c = 1337.
Proof.
  unfold supported, supportedChainIds; simpl.
  rewrite !orb_true_iff, !Z.eqb_eq. intuition discriminate.
Qed.

(** C10: a chain id is accepted by the injected connector exactly when it
    is 24578 or 1337; the chain that [connectWallet] asks the wallet to
    switch to, [0x60AE], is 24750 and is not accepted. *)
Theorem C10_supported_chain_ids :
  (forall c : Z, supported c = true <-> c = 24578 \/ c = 1337) /\
  parse_hex connectWallet_chainId = Some 24750 /\
  supported 24750 = false.
Proof.
  split; [exact supported_iff | split; reflexivity].
Qed.

End ConnectorFacts.

(** ** The dashcam: one call of uploadClip *)

Section UploadFacts.
Import DashcamView.

(** Whatever the server answers, [uploadClip] returns: nothing escapes its
    [catch]. *)
Lemma uploadClip_returns (r : Render) (now : Z) resp :
  snd (uploadClip r now resp) = inr tt.
Proof.
  unfold uploadClip, post_and_record, data_session_id, js_or.
  destruct (truthy (account r)), resp as [|[o|]]; simpl;
    try reflexivity;
    destruct (truthy (get o "session_id")), (truthy (sessionId r));
    reflexivity.
Qed.

(** Each call posts exactly one form, filled from the values of [r]. *)
Lemma uploadClip_posts (r : Render) (now : Z) resp :
  posts (fst (uploadClip r now resp)) = [filled_form r now].
Proof.
  unfold uploadClip, post_and_record, data_session_id, js_or, filled_form.
  destruct (truthy (account r)) eqn:Ha, resp as [|[o|]]; simpl;
    try reflexivity;
    destruct (truthy (get o "session_id")), (truthy (sessionId r));
    reflexivity.
Qed.

(** A call whose render has no account posts under the zero address. *)
Lemma uploadClip_placeholder (r : Render) (now : Z) resp :
  truthy (account r) = false ->
  map wallet_address (posts (fst (uploadClip r now resp))) = [defaultAddress].
Proof.
  intros Ha. rewrite uploadClip_posts. unfold filled_form. rewrite Ha. reflexivity.
Qed.

(** C5: when the upload request fails, [uploadClip] has posted once and
    posts no more, returns without an exception, and after the post does
    nothing but log the error and show the 'Upload Failed' toast: no state
    cell is written, so the clip counter keeps its value. *)
Theorem C5_failed_upload_is_only_notified (r : Render) (now : Z) :
  snd (uploadClip r now Rejected) = inr tt /\
  posts (fst (uploadClip r now Rejected)) = [filled_form r now] /\
  (exists before,
     fst (uploadClip r now Rejected) =
       (before ++ [Post (filled_form r now); ConsoleError "Upload error:";
                   Toast "Upload Failed"])%list /\
     posts before = []) /\
  (forall cur : Render,
     fold_left apply (fst (uploadClip r now Rejected)) cur = cur) /\
  (forall ms c rec size,
     mediaRecorderRef c = Some rec -> ondataavailable rec = r ->
     sessionClips (current (fst (step ms c (DataAvailable size now Rejected))))
       = sessionClips (current c)).
Proof.
  split; [apply uploadClip_returns|].
  split; [apply uploadClip_posts|].
  split; [|split].
  - unfold uploadClip, post_and_record, js_or, filled_form.
    destruct (truthy (account r)); simpl.
    + exists []. split; reflexivity.
    + exists [ConsoleError "Wallet not connected during upload attempt"].
      split; reflexivity.
  - intros cur. unfold uploadClip, post_and_record.
    destruct (truthy (account r)); simpl; destruct cur; reflexivity.
  - intros ms c rec size Href Hr. unfold step. rewrite Href.
    destruct (flushing rec || is_recording rec); [|reflexivity].
    rewrite Hr.
    assert (Hfold : forall cur,
      fold_left apply
        (if 0 <? size then fst (uploadClip r now Rejected) else []) cur = cur).
    { intros cur. destruct (0 <? size); [|reflexivity].
      unfold uploadClip, post_and_record.
      destruct (truthy (account r)); simpl; destruct cur; reflexivity. }
    rewrite Hfold. unfold commit.
    rewrite bool_decide_eq_true_2 by reflexivity.
    rewrite Bool.eqb_reflx. simpl. reflexivity.
Qed.

End UploadFacts.

(** ** The dashcam: which render an upload reads *)

Section RecordingFacts.
Import DashcamView.

Lemma commit_current ms (old new : Render) ref :
  current (fst (commit ms old new ref)) = new.
Proof.
  unfold commit.
  destruct (if negb (bool_decide (cameraStream old = cameraStream new))
            then _ else _); reflexivity.
Qed.

Lemma commit_same_stream ms (old new : Render) (rec : Recorder) :
  cameraStream new = cameraStream old ->
  exists rec',
    mediaRecorderRef (fst (commit ms old new (Some rec))) = Some rec' /\
    ondataavailable rec' = ondataavailable rec.
Proof.
  intros Hcam. unfold commit. rewrite Hcam.
  rewrite bool_decide_eq_true_2 by reflexivity. simpl.
  destruct (negb (eqb (isRecording old) (isRecording new))); simpl;
    [|eauto].
  unfold recording_effect.
  destruct (is_recording rec) eqn:Hr, (isRecording new); simpl;
    rewrite ?Hr; simpl; rewrite ?Hr; eauto.
Qed.

Lemma fst_with_actions {A B C} (x : A * B) (f : B -> C) :
  fst (let '(c, a) := x in (c, f a)) = fst x.
Proof. destruct x; reflexivity. Qed.

Lemma apply_keeps_stream (l : list action) (r : Render) :
  cameraStream (fold_left apply l r) = cameraStream r /\
  isRecording (fold_left apply l r) = isRecording r.
Proof.
  revert r. induction l as [|x l IH]; intros r; [split; reflexivity|].
  simpl. destruct (IH (apply r x)) as [-> ->].
  destruct x; split; reflexivity.
Qed.

(** The handler of the recorder is the one installed when the camera
    stream was set: no event that leaves the stream as it is replaces the
    render that the handler reads. *)
Lemma handler_is_kept ms (c : Component) (ev : Event) (rec : Recorder) :
  mediaRecorderRef c = Some rec ->
  cameraStream (current (fst (step ms c ev))) = cameraStream (current c) ->
  exists rec',
    mediaRecorderRef (fst (step ms c ev)) = Some rec' /\
    ondataavailable rec' = ondataavailable rec.
Proof.
  intros Href Hcam. destruct c as [cur ref]; simpl in *; subst ref.
  destruct ev as [cam|a|cam| |size now resp| ]; simpl in *.
  - destruct (requestCameraPermission cam cur) as [[r acts] g].
    rewrite fst_with_actions in *. rewrite commit_current in Hcam.
    apply commit_same_stream, Hcam.
  - apply commit_same_stream. reflexivity.
  - destruct (truthy (account cur) && negb (isRecording cur)); [|eauto].
    destruct (startRecording cam _) as [r acts].
    rewrite fst_with_actions in *. rewrite commit_current in Hcam.
    apply commit_same_stream, Hcam.
  - destruct (truthy (account cur) && isRecording cur); [|eauto].
    rewrite commit_current in Hcam.
    destruct (is_recording rec).
    + destruct (commit_same_stream ms cur _ (stop rec) Hcam)
        as (rec' & H1 & H2). eauto.
    + apply commit_same_stream, Hcam.
  - destruct (flushing rec || is_recording rec); [|eauto].
    rewrite fst_with_actions in *. rewrite commit_current in Hcam.
    destruct (commit_same_stream ms cur _ (delivered rec) Hcam)
      as (rec' & H1 & H2). eauto.
  - destruct (isRecording cur); [|eauto].
    apply commit_same_stream. reflexivity.
Qed.

(** An upload is filled from the render of the handler, not from the
    current values of the component. *)
Lemma upload_reads_handler ms (c : Component) (rec : Recorder) size now resp :
  mediaRecorderRef c = Some rec ->
  (flushing rec || is_recording rec) = true -> 0 < size ->
  posts (snd (step ms c (DataAvailable size now resp)))
    = [filled_form (ondataavailable rec) now].
Proof.
  intros Href Hact Hsize. unfold step. rewrite Href, Hact.
  apply Z.ltb_lt in Hsize. rewrite Hsize.
  unfold commit.
  destruct (apply_keeps_stream
              (fst (uploadClip (ondataavailable rec) now resp)) (current c))
    as [-> ->].
  rewrite bool_decide_eq_true_2 by reflexivity.
  rewrite Bool.eqb_reflx; simpl.
  rewrite app_nil_r. apply uploadClip_posts.
Qed.

Lemma step_keeps_stream ms (c : Component) (ev : Event) :
  keeps_stream ev = true ->
  cameraStream (current (fst (step ms c ev))) = cameraStream (current c).
Proof.
  intros Hk. destruct c as [cur ref].
  destruct ev as [[st|]|a|[st|]| |size now resp| ]; try discriminate Hk;
    cbn [step current mediaRecorderRef requestCameraPermission].
  - rewrite fst_with_actions, commit_current. reflexivity.
  - rewrite commit_current. reflexivity.
  - destruct (truthy (account cur) && negb (isRecording cur)); [|reflexivity].
    unfold startRecording. cbn [current mediaRecorderRef requestCameraPermission].
    destruct (hasPermission cur); cbn [negb].
    + destruct ref; rewrite fst_with_actions, commit_current; reflexivity.
    + rewrite fst_with_actions, commit_current. reflexivity.
  - destruct (truthy (account cur) && isRecording cur); [|reflexivity].
    cbn [stopRecording current mediaRecorderRef].
    rewrite commit_current. reflexivity.
  - destruct ref as [rec|]; [|reflexivity].
    destruct (flushing rec || is_recording rec); [|reflexivity].
    rewrite fst_with_actions, commit_current.
    apply apply_keeps_stream.
  - destruct (isRecording cur); [|reflexivity].
    rewrite commit_current. reflexivity.
Qed.

Lemma commit_no_post ms (old new : Render) ref :
  posts (snd (commit ms old new ref)) = [].
Proof.
  unfold commit.
  destruct (negb (bool_decide (cameraStream old = cameraStream new)));
    [|reflexivity].
  unfold camera_effect. destruct (cameraStream new), ms; reflexivity.
Qed.

Lemma posts_app (l1 l2 : list action) :
  posts (l1 ++ l2) = (posts l1 ++ posts l2)%list.
Proof. unfold posts. apply omap_app. Qed.

Lemma snd_with_actions {A B} (x : A * list B) (l : list B) :
  snd (let '(c, a) := x in (c, (l ++ a)%list)) = (l ++ snd x)%list.
Proof. destruct x; reflexivity. Qed.

(** Only the recorder's data event posts, and at most one form. *)
Lemma step_posts ms (c : Component) (ev : Event) (rec : Recorder) :
  mediaRecorderRef c = Some rec ->
  posts (snd (step ms c ev)) = [] \/
  exists now, posts (snd (step ms c ev))
                = [filled_form (ondataavailable rec) now].
Proof.
  intros Href. destruct c as [cur ref]. cbn in Href. subst ref.
  destruct ev as [cam|a|cam| |size now resp| ];
    cbn [step current mediaRecorderRef].
  - left. destruct cam; cbn [requestCameraPermission];
      rewrite snd_with_actions, posts_app, commit_no_post; reflexivity.
  - left. apply commit_no_post.
  - left. destruct (truthy (account cur) && negb (isRecording cur));
      [|reflexivity].
    unfold startRecording. cbn [current mediaRecorderRef].
    destruct (hasPermission cur); cbn [negb].
    + rewrite snd_with_actions, posts_app, commit_no_post. reflexivity.
    + destruct cam; cbn [requestCameraPermission negb];
        rewrite snd_with_actions, posts_app, commit_no_post; reflexivity.
  - left. destruct (truthy (account cur) && isRecording cur); [|reflexivity].
    cbn [stopRecording]. apply commit_no_post.
  - destruct (flushing rec || is_recording rec); [|left; reflexivity].
    rewrite snd_with_actions, posts_app, commit_no_post, app_nil_r.
    destruct (0 <? size); [|left; reflexivity].
    right. exists now. apply uploadClip_posts.
  - left. destruct (isRecording cur); [|reflexivity]. apply commit_no_post.
Qed.

(** Through a whole run in which the camera stream stays as it is, every
    form posted is filled from the render that the handler captured when
    the stream was set: later changes of the account, of the session id,
    of the clip counter and of the recording flag never reach an upload. *)
Theorem uploads_read_the_captured_render ms (evs : list Event) :
  forall (c : Component) (rec : Recorder),
  mediaRecorderRef c = Some rec ->
  forallb keeps_stream evs = true ->
  forall f, In f (posts (snd (run ms c evs))) ->
  exists now, f = filled_form (ondataavailable rec) now.
Proof.
  induction evs as [|ev evs IH]; intros c rec Href Hk f Hin; [destruct Hin|].
  cbn [forallb] in Hk. apply andb_prop in Hk as [Hev Hevs].
  cbn [run] in Hin.
  destruct (step ms c ev) as [c1 a1] eqn:Hstep.
  destruct (run ms c1 evs) as [c2 a2] eqn:Hrun.
  cbn [snd] in Hin. rewrite posts_app in Hin. apply in_app_or in Hin.
  destruct Hin as [Hin|Hin].
  - destruct (step_posts ms c ev rec Href) as [Hnil|[now Hone]];
      rewrite Hstep in *; cbn [snd] in *.
    + rewrite Hnil in Hin. destruct Hin.
    + rewrite Hone in Hin. destruct Hin as [<-|[]]. eauto.
  - pose proof (handler_is_kept ms c ev rec Href) as Hkept.
    pose proof (step_keeps_stream ms c ev Hev) as Hsame.
    rewrite Hstep in *. cbn [fst] in *.
    destruct (Hkept Hsame) as (rec' & Href' & Hhandler).
    rewrite <- Hhandler. apply (IH c1 rec' Href' Hevs).
    rewrite Hrun. exact Hin.
Qed.

(** [startRecording] clears the session id and the clip counter of the
    page (when the camera is ready). *)
Lemma startRecording_resets (c : Component) (rec : Recorder) cam :
  hasPermission (current c) = true ->
  mediaRecorderRef c = Some rec ->
  sessionId (fst (startRecording cam c)) = JNull /\
  sessionClips (fst (startRecording cam c)) = 0 /\
  isRecording (fst (startRecording cam c)) = true.
Proof.
  intros Hp Href. unfold startRecording. rewrite Hp, Href.
  repeat split; reflexivity.
Qed.

(** When the camera was granted before the wallet connected, the chunks
    of a recording made with the wallet connected are posted under the
    zero address. *)
Lemma upload_while_connected_uses_placeholder :
  let '(c, acts) :=
    step true recording_started_after_late_connection
      (DataAvailable 1 1000 (accepted 7)) in
  account (current recording_started_after_late_connection) = wallet /\
  map wallet_address (posts acts) = [defaultAddress].
Proof.
  vm_compute. split; reflexivity.
Qed.

(** C1, as the code has it: the wallet is disconnected while a recording
    runs and the next chunk arrives.  The upload is made and the recorder
    goes on recording, but the form carries the account that was connected
    when the camera stream was set, not the zero address: the handler
    still calls the [uploadClip] of that earlier render. *)
Theorem C1_upload_after_disconnect_keeps_old_account :
  let disconnected :=
    fst (step true recording_started (AccountChanged JUndef)) in
  let '(after, acts) :=
    step true disconnected (DataAvailable 1 1000 (accepted 7)) in
  truthy (account (current disconnected)) = false /\
  map wallet_address (posts acts) = [to_string wallet] /\
  to_string wallet <> defaultAddress /\
  isRecording (current after) = true /\
  is_recording <$> mediaRecorderRef after = Some true.
Proof.
  vm_compute. repeat split; discriminate.
Qed.

(** C2, as the code has it: two chunks of one recording are accepted by
    the server; the counter of the page reaches 2, yet both chunks were
    posted with sequence number 0, so the chunks of the session are not
    numbered 0, 1 and their sorted list is not strictly ordered. *)
Theorem C2_accepted_chunks_share_sequence_number_zero :
  let '(c1, a1) :=
    step true recording_started (DataAvailable 1 1000 (accepted 7)) in
  let '(c2, a2) := step true c1 (DataAvailable 1 2000 (accepted 7)) in
  sessionClips (current c2) = 2 /\
  map sequence_number (posts (a1 ++ a2)) = ["0"; "0"] /\
  ~ Gallery.numbered_from_zero [0; 0] /\
  forall cid1 cid2,
    ~ Gallery.strictly_ordered
        (Gallery.sort_chunks
           [ {| Gallery.sequence_number := 0; Gallery.video_cid := cid1 |};
             {| Gallery.sequence_number := 0; Gallery.video_cid := cid2 |} ]).
Proof.
  vm_compute. split; [reflexivity|]. split; [reflexivity|].
  split; [discriminate|].
  intros cid1 cid2 H. inversion H as [|x l Hs Hall]; subst.
  inversion Hall as [|y l' Hlt Hrest]; subst. discriminate Hlt.
Qed.

(** C3, as the code has it: the first chunk is posted while recording is
    in progress and is tagged as the last chunk; the second chunk is
    posted after the session id has been stored and is still tagged as the
    first chunk. *)
Theorem C3_chunks_all_tagged_first_and_last :
  let '(c1, a1) :=
    step true recording_started (DataAvailable 1 1000 (accepted 7)) in
  let '(c2, a2) := step true c1 (DataAvailable 1 2000 (accepted 7)) in
  isRecording (current recording_started) = true /\
  map is_last_chunk (posts a1) = ["true"] /\
  sessionId (current c1) = JNum 7 /\
  isRecording (current c1) = true /\
  map is_first_chunk (posts a2) = ["true"] /\
  map is_last_chunk (posts a2) = ["true"].
Proof.
  vm_compute. repeat split; reflexivity.
Qed.

(** C4, as the code has it: the first response stores session id 7; the
    next chunk of the same recording is posted with the session id
    [null], and the id that comes with its response replaces the stored
    one. *)
Theorem C4_session_id_not_threaded_and_overwritten :
  let '(c1, a1) :=
    step true recording_started (DataAvailable 1 1000 (accepted 7)) in
  let '(c2, a2) := step true c1 (DataAvailable 1 2000 (accepted 8)) in
  sessionId (current c1) = JNum 7 /\
  map session_id (posts a2) = ["null"] /\
  to_string (JNum 7) = "7" /\
  sessionId (current c2) = JNum 8.
Proof.
  vm_compute. repeat split.
Qed.

End RecordingFacts.

(** ** The blockchain-proof page: one item *)

Section ItemFacts.
Import BlockchainProof.

Lemma replace_prefix (p s : string) :
  startsWith p s = true -> replace p "" s = drop_chars (String.length p) s.
Proof.
  intros H. destruct s; simpl; rewrite H; reflexivity.
Qed.

Lemma truthy_or_default (a d : jsval) :
  truthy d = true -> truthy (js_or a d) = true.
Proof.
  intros H. unfold js_or. destruct (truthy a) eqn:Ha; assumption.
Qed.

Lemma truthy_gateway (s : string) : truthy (JStr (gateway ++ s)) = true.
Proof. reflexivity. Qed.

Lemma image_choice_string (item : gmap string jsval) :
  exists url, image_choice item = JStr url /\ url <> "".
Proof.
  unfold image_choice.
  destruct (truthy (get item "image") && is_string (get item "image")) eqn:Hi.
  - apply andb_prop in Hi as [Htr Hstr].
    destruct (get item "image") as [| | | |s|]; try discriminate Hstr.
    exists s. split; [reflexivity|]. intros ->. discriminate Htr.
  - destruct (truthy (js_or (get item "cid") (get item "image_cid"))).
    + eexists. split; [reflexivity|]. discriminate.
    + destruct (get item "metadata_uri") as [| | | |s|];
        try (eexists; split; [reflexivity|discriminate]).
      destruct (startsWith "ipfs://" s);
        eexists; (split; [reflexivity|discriminate]).
Qed.

(** On a usable item [imageUrl] returns, and the value it returns, with
    the placeholder in place of [null], is the image chosen above. *)
Lemma imageUrl_usable {E} (item : gmap string jsval) :
  metadata_uri_usable item = true ->
  exists v,
    imageUrl (E:=E) item = ([], inr v) /\
    (if negb (truthy v) then JStr placeholder else v) = image_choice item.
Proof.
  unfold metadata_uri_usable, imageUrl, image_choice. intros Hok.
  destruct (truthy (get item "image") && is_string (get item "image")) eqn:Hi.
  - apply andb_prop in Hi as [Htr Hstr].
    eexists. split; [reflexivity|]. rewrite Htr. reflexivity.
  - destruct (truthy (js_or (get item "cid") (get item "image_cid"))) eqn:Hc.
    + eexists. split; [reflexivity|]. rewrite truthy_gateway. reflexivity.
    + cbn [orb] in Hok.
      destruct (get item "metadata_uri") as [| |b|n|s|o] eqn:Hmu.
      * eexists. split; reflexivity.
      * eexists. split; reflexivity.
      * destruct b; [discriminate Hok|]. eexists. split; reflexivity.
      * destruct (truthy (JNum n)) eqn:Hn; [discriminate Hok|].
        eexists. split; reflexivity.
      * destruct (truthy (JStr s)) eqn:Hs.
        -- cbn [call_startsWith bind ret app].
           destruct (startsWith "ipfs://" s) eqn:Hsw.
           ++ eexists. split; [reflexivity|].
              rewrite truthy_gateway. cbn [negb to_string].
              rewrite (replace_prefix _ _ Hsw). reflexivity.
           ++ eexists. split; reflexivity.
        -- cbn [bind ret app].
           assert (s = "") as ->
               by (destruct s; [reflexivity|discriminate Hs]).
           eexists. split; reflexivity.
      * discriminate Hok.
Qed.

(** For every item that lets [imageUrl] finish (its image, cid or
    image_cid decides the URL, or its metadata_uri is falsy or a
    string), [processItem] returns a record whose image is a non-empty
    string: the item's image string, else the gateway URL of cid or
    image_cid, else the gateway URL of an [ipfs://] metadata_uri without
    its prefix, else the placeholder; and tokenId, imageCid and
    metadataUri are truthy, hence neither null nor undefined, with
    'Unknown' standing in when the item has no truthy source. *)
Lemma usable_item_gets_an_image (toISOString : Z -> string)
    (account : jsval) (now : Z) (item : gmap string jsval) :
  metadata_uri_usable item = true ->
  exists tx,
    processItem toISOString (E:=action) account now item = ([], inr tx) /\
    (exists url, image tx = JStr url /\ url <> "") /\
    image tx = image_choice item /\
    truthy (tokenId tx) = true /\
    truthy (imageCid tx) = true /\
    truthy (metadataUri tx) = true /\
    (truthy (get item "token_id") = false ->
     truthy (get item "tokenId") = false -> tokenId tx = JStr "Unknown") /\
    (truthy (get item "cid") = false ->
     truthy (get item "image_cid") = false ->
     truthy (get item "imageCid") = false -> imageCid tx = JStr "Unknown") /\
    (truthy (get item "metadata_uri") = false ->
     truthy (get item "metadataUri") = false ->
     metadataUri tx = JStr "Unknown").
Proof.
  intros Hok.
  destruct (imageUrl_usable (E:=action) item Hok) as (v & Hv & Hfinal).
  unfold processItem. rewrite Hv. cbn [bind ret app].
  eexists. split; [reflexivity|]. cbn [image tokenId imageCid metadataUri].
  rewrite Hfinal.
  split; [apply image_choice_string|].
  split; [reflexivity|].
  split; [repeat apply truthy_or_default; reflexivity|].
  split; [repeat apply truthy_or_default; reflexivity|].
  split; [repeat apply truthy_or_default; reflexivity|].
  unfold js_or.
  split; [intros -> ->; reflexivity|].
  split; [intros -> -> ->; reflexivity|].
  intros -> ->; reflexivity.
Qed.

(** Outside the usable items the callback throws: the test of
    [metadata_uri] calls [startsWith] on a value that has no such
    method. *)
Lemma processItem_throws_otherwise (toISOString : Z -> string)
    (account : jsval) (now : Z) (item : gmap string jsval) :
  metadata_uri_usable item = false ->
  processItem toISOString (E:=action) account now item
  = ([], inl (TypeError "item.metadata_uri.startsWith is not a function")).
Proof.
  unfold metadata_uri_usable, processItem, imageUrl. intros H.
  apply orb_false_elim in H as [H Hstr].
  apply orb_false_elim in H as [H Htr].
  apply orb_false_elim in H as [Himg Hcid].
  rewrite Himg, Hcid. apply negb_false_iff in Htr. rewrite Htr.
  destruct (get item "metadata_uri"); try discriminate Hstr; reflexivity.
Qed.

End ItemFacts.

Section ItemExamples.
Import BlockchainProof.

(** C9: an item whose only field is a numeric [metadata_uri] has nothing
    to build an image from, so the chain of fallbacks should end at the
    placeholder; instead the callback throws a [TypeError] and produces
    no record.  The exception leaves [data.map]: in a list that also
    holds a usable item, [processTransactionData] sets no transactions
    at all, so the usable item gets no record either. *)
Theorem C9_numeric_metadata_uri_yields_no_record
    (toISOString : Z -> string) (account : jsval) (now : Z) :
  let bad : gmap string jsval := {[ "metadata_uri" := JNum 5 ]} in
  let good : gmap string jsval :=
    {[ "image" := JStr "http://localhost:8080/ipfs/QmPhoto" ]} in
  image_choice bad = JStr placeholder /\
  processItem toISOString (E:=action) account now bad
  = ([], inl (TypeError "item.metadata_uri.startsWith is not a function")) /\
  (exists tx,
     processItem toISOString (E:=action) account now good = ([], inr tx) /\
     image tx = JStr "http://localhost:8080/ipfs/QmPhoto") /\
  processTransactionData toISOString account now [good; bad]
  = ([], inl (TypeError "item.metadata_uri.startsWith is not a function")).
Proof.
  cbv zeta.
  assert (Hbad : processItem toISOString (E:=action) account now
                   {[ "metadata_uri" := JNum 5 ]}
                 = ([], inl (TypeError
                               "item.metadata_uri.startsWith is not a function")))
    by (apply processItem_throws_otherwise; vm_compute; reflexivity).
  assert (Hok : metadata_uri_usable
                  {[ "image" := JStr "http://localhost:8080/ipfs/QmPhoto" ]}
                = true) by (vm_compute; reflexivity).
  destruct (usable_item_gets_an_image toISOString account now _ Hok)
    as (tx & Hgood & _ & Himg & _).
  split; [vm_compute; reflexivity|]. split; [exact Hbad|].
  split; [exists tx; split;
          [exact Hgood|rewrite Himg; vm_compute; reflexivity]|].
  unfold processTransactionData. cbn [map_items].
  rewrite Hgood, Hbad. reflexivity.
Qed.

(** An answer of the verification endpoint that carries a token id and
    an [ipfs://] metadata URI is usable. *)
Lemma usable_item_example :
  metadata_uri_usable
    (list_to_map [("token_id", JNum 4); ("metadata_uri", JStr "ipfs://QmTest123")])
    = true /\
  exists tx,
    processItem (fun _ => "2025-01-01T00:00:00.000Z") (E:=action) JUndef 0
      (list_to_map [("token_id", JNum 4); ("metadata_uri", JStr "ipfs://QmTest123")])
      = ([], inr tx) /\
    image tx = JStr "http://localhost:8080/ipfs/QmTest123" /\
    tokenId tx = JNum 4 /\
    imageCid tx = JStr "Unknown".
Proof.
  split; [vm_compute; reflexivity|].
  destruct (usable_item_gets_an_image
              (fun _ => "2025-01-01T00:00:00.000Z") JUndef 0
              (list_to_map [("token_id", JNum 4);
                            ("metadata_uri", JStr "ipfs://QmTest123")]))
    as (tx & Htx & _ & Himg & _ & _ & _ & _ & Hcid & _).
  - vm_compute; reflexivity.
  - exists tx. split; [exact Htx|]. split; [rewrite Himg; vm_compute; reflexivity|].
    split.
    + vm_compute in Htx. injection Htx as <-. reflexivity.
    + apply Hcid; vm_compute; reflexivity.
Defined.

End ItemExamples.

(** ** The blockchain-proof page: loading the transactions *)

Section PageFacts.
Import BlockchainProof.

Variable toISOString : Z -> string.

Lemma console_only_fold (l : list action) (ui : UI) :
  forallb is_console l = true -> fold_left apply l ui = ui.
Proof.
  revert ui. induction l as [|a l IH]; intros ui H; [reflexivity|].
  simpl in H. apply andb_prop in H as [Ha Hl].
  destruct a; try discriminate Ha. simpl. apply IH, Hl.
Qed.

Lemma wallet_nfts_console active account be :
  forallb is_console (fst (wallet_nfts active account be)) = true.
Proof.
  unfold wallet_nfts.
  destruct (active && truthy account); [|reflexivity].
  destruct (nfts be (to_string account)) as [|[l|]]; reflexivity.
Qed.

Lemma tx_hashes_returns be :
  exists l hs, tx_hashes be = (l, inr hs) /\ forallb is_console l = true.
Proof.
  unfold tx_hashes, recent_hashes, media_hashes.
  destruct (recent_transactions be) as [|[txs|]]; cbn.
  - destruct (query_media be) as [|[rs|]]; cbn; eauto.
  - destruct (length (map (fun tx => get tx "hash") txs) =? 0)%nat; cbn.
    + destruct (query_media be) as [|[rs|]]; cbn; eauto.
    + eauto.
  - destruct (query_media be) as [|[rs|]]; cbn; eauto.
Qed.

Lemma verify_all_nothing be (hs : list jsval) :
  (forall h, In h hs -> verified be h = false) ->
  exists l, verify_all be hs = (l, inr []) /\ forallb is_console l = true.
Proof.
  induction hs as [|h hs IH]; intros Hno; [exists []; split; reflexivity|].
  destruct IH as (l & Hl & Hc); [intros h' Hin; apply Hno; right; exact Hin|].
  assert (Hh := Hno h (or_introl eq_refl)). unfold verified in Hh.
  cbn [verify_all]. rewrite Hl. unfold verify_one.
  destruct (verify_tx be (to_string h)) as [|[d|]]; cbn; rewrite ?Hh; cbn;
    rewrite ?app_nil_r; eexists; (split; [reflexivity|]);
    cbn; exact Hc.
Qed.

(** The sample transactions are processed without an exception, whoever
    is connected. *)
Lemma mock_processed account now loadTime :
  exists txs,
    map_items (processItem toISOString (E:=action) account now)
      (mockTransactions toISOString loadTime) = ([], inr txs) /\
    map tokenId txs = [JNum 1; JNum 2; JNum 3] /\
    map blockNumber txs = [JNum 12345678; JNum 12345679; JNum 12345680] /\
    map imageCid txs = [JStr "QmXyZ..."; JStr "QmABC..."; JStr "QmDEF..."].
Proof.
  exists (match snd (map_items (processItem toISOString (E:=action) account now)
                       (mockTransactions toISOString loadTime)) with
          | inr txs => txs
          | inl _ => []
          end).
  repeat split; vm_compute; reflexivity.
Qed.

(** C8: when the wallet query yields no NFT and none of the (at most
    five) queried hashes verifies as existing on the blockchain,
    [fetchData] ends without an exception, the panel shows the three
    sample transactions (token ids 1, 2, 3) and not the empty notice, and
    the one toast raised is 'Using sample data'. *)
Theorem C8_sample_data_when_nothing_found
    (active : bool) (account : jsval) (now loadTime : Z) (be : Backend)
    (hashes : list jsval) :
  snd (wallet_nfts active account be) = inr [] ->
  snd (tx_hashes be) = inr hashes ->
  (forall h, In h (take 5 hashes) -> verified be h = false) ->
  let result := fetchData toISOString active account now loadTime be in
  let ui := fold_left apply (fst result) initial in
  snd result = inr tt /\
  snd (map_items (processItem toISOString (E:=action) account now)
         (mockTransactions toISOString loadTime)) = inr (transactions ui) /\
  map tokenId (transactions ui) = [JNum 1; JNum 2; JNum 3] /\
  length (transactions ui) = 3%nat /\
  view ui = TransactionFlow (transactions ui) /\
  toasts ui = ["Using sample data"].
Proof.
  intros Hnfts Hhashes Hnone.
  pose proof (wallet_nfts_console active account be) as Hc1.
  destruct (wallet_nfts active account be) as [l1 r1] eqn:E1.
  simpl in Hnfts, Hc1. subst r1.
  destruct (tx_hashes_returns be) as (l2 & hs & E2 & Hc2).
  rewrite E2 in Hhashes. simpl in Hhashes. injection Hhashes as ->.
  destruct (verify_all_nothing be _ Hnone) as (l3 & E3 & Hc3).
  destruct (mock_processed account now loadTime)
    as (txs & Emock & Htok & _ & _).
  assert (Hlen : length txs = 3%nat).
  { rewrite <- (length_map tokenId), Htok. reflexivity. }
  unfold fetchData, use_mock, processTransactionData.
  rewrite E1. cbn [bind try_catch emit ret app length Nat.ltb Nat.leb].
  rewrite E2. cbn [bind try_catch emit ret app].
  rewrite E3. cbn [bind try_catch emit ret app length Nat.ltb Nat.leb].
  rewrite Emock.
  cbn [bind try_catch try_finally emit ret app length Nat.ltb Nat.leb fst snd].
  match goal with |- context [fold_left apply ?l initial] =>
    assert (Hui : fold_left apply l initial =
                  {| transactions := txs; loading := false;
                     totalNFTs := length txs;
                     toasts := ["Using sample data"] |}) end.
  { cbn [fold_left]. rewrite !fold_left_app.
    rewrite (console_only_fold l1) by exact Hc1.
    rewrite (console_only_fold l2) by exact Hc2.
    rewrite (console_only_fold l3) by exact Hc3.
    reflexivity. }
  rewrite Hui. unfold view. cbn [transactions loading toasts].
  rewrite Hlen. repeat split; auto.
Qed.

End PageFacts.

Section PageExamples.
Import BlockchainProof.

(** C8, witness: the wallet holds no NFT and the only known hash does not
    verify; the page shows the sample transactions and the notice. *)
Lemma C8_witness_backend_without_media :
  snd (wallet_nfts true (JStr "0x71C7656EC7ab88b098defB751B7401B5f6d8976F")
         backend_without_media) = inr [] /\
  snd (tx_hashes backend_without_media) = inr [JStr "0x00ab"] /\
  (forall h, In h (take 5 [JStr "0x00ab"]) ->
             verified backend_without_media h = false) /\
  map tokenId
    (transactions
       (fold_left apply
          (fst (fetchData (fun _ => "2025-01-01T00:00:00.000Z") true
                  (JStr "0x71C7656EC7ab88b098defB751B7401B5f6d8976F")
                  0 0 backend_without_media))
          initial)) = [JNum 1; JNum 2; JNum 3] /\
  toasts
    (fold_left apply
       (fst (fetchData (fun _ => "2025-01-01T00:00:00.000Z") true
               (JStr "0x71C7656EC7ab88b098defB751B7401B5f6d8976F")
               0 0 backend_without_media))
       initial) = ["Using sample data"].
Proof.
  assert (H1 : snd (wallet_nfts true
                      (JStr "0x71C7656EC7ab88b098defB751B7401B5f6d8976F")
                      backend_without_media) = inr []) by reflexivity.
  assert (H2 : snd (tx_hashes backend_without_media) = inr [JStr "0x00ab"])
    by reflexivity.
  assert (H3 : forall h, In h (take 5 [JStr "0x00ab"]) ->
                         verified backend_without_media h = false).
  { intros h [<-|[]]. reflexivity. }
  destruct (C8_sample_data_when_nothing_found
              (fun _ => "2025-01-01T00:00:00.000Z") true
              (JStr "0x71C7656EC7ab88b098defB751B7401B5f6d8976F") 0 0
              backend_without_media [JStr "0x00ab"] H1 H2 H3)
    as (_ & _ & Htok & _ & _ & Htoast).
  repeat split; assumption.
Defined.

End PageExamples.

(** ** The transaction resolver *)

Section ResolverFacts.
Import Resolver.

Variable contract_address : string.
Variable selectors : list (string * (MediaType * string)).
Variable chain : string -> option (Transaction * list Log).

(** C6: for a hash that the chain does not know the resolver returns, as
    a result and not as an exception, that the transaction does not exist,
    without a media type; for a transaction on the chain it always returns
    a result, and when the transaction is addressed to the contract and
    its selector is not in the table, or no log of its receipt is the
    event of its selector, the result is the contract interaction of
    unknown type. *)
Theorem C6_resolver_answers_every_hash (tx_hash : string) :
  match chain tx_hash with
  | None =>
      resolve contract_address selectors chain tx_hash
        = Returned does_not_exist /\
      exists_on_blockchain does_not_exist = false /\
      media_type does_not_exist = None
  | Some (tx, logs) =>
      (exists r, resolve contract_address selectors chain tx_hash = Returned r) /\
      (to tx = contract_address ->
       match known_selector selectors tx with
       | None => True
       | Some (kind, ev) =>
           List.find (fun l => String.eqb (event l) ev) logs = None
       end ->
       resolve contract_address selectors chain tx_hash
         = Returned unknown_interaction /\
       media_type unknown_interaction = Some contract_interaction /\
       function unknown_interaction = Some "unknown")
  end.
Proof.
  unfold resolve. destruct (chain tx_hash) as [[tx logs]|].
  - split.
    + destruct (negb (String.eqb (to tx) contract_address)); [eauto|].
      destruct (known_selector selectors tx) as [[kind ev]|]; [|eauto].
      destruct (List.find _ logs); eauto.
    + intros Hto Hshape. rewrite Hto, String.eqb_refl. simpl.
      destruct (known_selector selectors tx) as [[kind ev]|].
      * rewrite Hshape. auto.
      * auto.
  - auto.
Qed.

End ResolverFacts.

(** ** The block-range scanner *)

Section ScannerFacts.
Import Scanner.

Lemma query_accepted (p : Provider) owner n ts :
  query p owner n = Some ts ->
  forall t, t ∈ ts <->
    exists l, In l (logs p) /\ recipient l = owner /\
              in_window p n l = true /\ token l = t.
Proof.
  unfold query. destruct (accepts p n); [|discriminate].
  intros [= <-] t. rewrite list_elem_of_In, in_map_iff. split.
  - intros (l & <- & Hin). apply filter_In in Hin as [Hin Hb].
    apply andb_prop in Hb as [Hw Ho]. apply String.eqb_eq in Ho.
    exists l. auto.
  - intros (l & Hin & Ho & Hw & <-). exists l. split; [reflexivity|].
    apply filter_In. split; [exact Hin|].
    rewrite Hw. apply String.eqb_eq in Ho. rewrite Ho. reflexivity.
Qed.


(** The scan answers with the first window of the schedule that the
    provider accepts. *)
Lemma scan_tokens (p : Provider) owner (windows : list nat) ts :
  scan p owner windows = Tokens ts ->
  exists w, In w windows /\ query p owner w = Some ts.
Proof.
  induction windows as [|n ws IH]; [discriminate|].
  simpl. destruct (query p owner n) as [ts'|] eqn:Hq.
  - intros [= <-]. exists n. auto.
  - intros H. destruct (IH H) as (w & Hin & Hw). exists w. auto.
Qed.

Lemma scan_all_rejected (p : Provider) owner (windows : list nat) :
  (forall w, In w windows -> accepts p w = false) ->
  scan p owner windows = Unavailable.
Proof.
  induction windows as [|n ws IH]; intros Hrej; [reflexivity|].
  simpl. unfold query. rewrite (Hrej n (or_introl eq_refl)).
  apply IH. intros w Hin. apply Hrej. right. exact Hin.
Qed.








End ScannerFacts.

(** * Further properties of the components *)

(** ** DashcamView: answers, guards and the clock *)

Section DashcamMore.
Import DashcamView.

(** Whatever the server answers, also with a body that is [null],
    [uploadClip] returns normally and has posted exactly one form, the
    one filled from its render, and it raises at most one toast. *)
Theorem uploadClip_posts_once_and_returns (r : Render) (now : Z)
    (resp : http (option (gmap string jsval))) :
  snd (uploadClip r now resp) = inr tt /\
  posts (fst (uploadClip r now resp)) = [filled_form r now] /\
  (length (toasts (fst (uploadClip r now resp))) <= 1)%nat.
Proof.
  split; [apply uploadClip_returns|]. split; [apply uploadClip_posts|].
  unfold uploadClip, post_and_record, data_session_id.
  destruct (truthy (account r)), resp as [|[o|]]; simpl; try lia;
    destruct (truthy (get o "session_id")), (truthy (sessionId r));
    simpl; lia.
Qed.

(** What an answered upload does to the state cells [cur] of the page: a
    truthy [session_id] adds one to the counter and is stored only when
    the render that made the call had no session id; an answer whose
    [session_id] is missing, zero or empty changes nothing and raises no
    toast; an answer whose body is [null] or [undefined], so that reading
    its [session_id] throws, raises the 'Upload Failed' toast and changes
    nothing. *)
Theorem uploadClip_answer_handling (r cur : Render) (now : Z)
    (data : gmap string jsval) :
  let sid := get data "session_id" in
  let acts := fst (uploadClip r now (Resolved (Some data))) in
  let no_body := fst (uploadClip r now (Resolved None)) in
  fold_left apply acts cur =
    (if truthy sid then
       set_sessionClips (sessionClips cur + 1)
         (if truthy (sessionId r) then cur else set_sessionId sid cur)
     else cur) /\
  toasts acts = [] /\
  fold_left apply no_body cur = cur /\
  toasts no_body = ["Upload Failed"].
Proof.
  cbv zeta. unfold uploadClip, post_and_record, data_session_id.
  destruct cur.
  destruct (truthy (account r)); simpl;
    destruct (truthy (get data "session_id")), (truthy (sessionId r));
    simpl; repeat split; reflexivity.
Qed.

Lemma commit_same ms (old new : Render) (ref : option Recorder) :
  cameraStream new = cameraStream old ->
  commit ms old new ref =
    ({| current := new;
        mediaRecorderRef :=
          if negb (eqb (isRecording old) (isRecording new))
          then recording_effect new (cleanup_recording ref)
          else ref |}, []).
Proof.
  intros H. unfold commit. rewrite H.
  rewrite bool_decide_eq_true_2 by reflexivity. simpl.
  destruct (negb (eqb (isRecording old) (isRecording new))); reflexivity.
Qed.

Lemma badge_step ms (c : Component) (ev : Event) :
  badge_matches_recorder c -> keeps_stream ev = true ->
  badge_matches_recorder (fst (step ms c ev)).
Proof.
  unfold badge_matches_recorder. destruct c as [cur ref]. cbn [current mediaRecorderRef].
  intros Hb Hk.
  destruct ev as [[st|]|a|[st|]| |size now resp| ]; try discriminate Hk;
    cbn [step current mediaRecorderRef requestCameraPermission].
  - rewrite commit_same by reflexivity. cbn. rewrite eqb_reflx. exact Hb.
  - rewrite commit_same by reflexivity. cbn. rewrite eqb_reflx. exact Hb.
  - destruct (truthy (account cur) && negb (isRecording cur)) eqn:He;
      [|exact Hb].
    apply andb_prop in He as [_ Hrec]. apply negb_true_iff in Hrec.
    unfold startRecording. cbn [current mediaRecorderRef].
    destruct (hasPermission cur); cbn [negb requestCameraPermission].
    + destruct ref as [rec|].
      * rewrite commit_same by reflexivity. rewrite Hrec in Hb.
        destruct rec as [st0 [|] fl h]; [|discriminate Hb].
        cbn. rewrite Hrec. reflexivity.
      * rewrite commit_same by reflexivity. cbn. rewrite eqb_reflx. cbn.
        exact Hb.
    + rewrite commit_same by reflexivity. cbn. rewrite eqb_reflx. exact Hb.
  - destruct (truthy (account cur) && isRecording cur) eqn:He; [|exact Hb].
    apply andb_prop in He as [_ Hrec].
    cbn [stopRecording current mediaRecorderRef].
    rewrite commit_same by reflexivity. cbn. rewrite Hrec. cbn.
    rewrite Hrec in Hb.
    destruct ref as [[st0 [|] fl h]|]; try discriminate Hb.
    reflexivity.
  - destruct ref as [rec|]; [|exact Hb].
    destruct (flushing rec || is_recording rec); [|exact Hb].
    set (acts := if 0 <? size then _ else _).
    destruct (apply_keeps_stream acts cur) as [Hc Hr].
    rewrite commit_same by exact Hc. cbn [fst current mediaRecorderRef].
    rewrite !Hr, eqb_reflx. cbn [negb]. exact Hb.
  - destruct (isRecording cur) eqn:Hrec; [|cbn; rewrite Hrec; exact Hb].
    rewrite commit_same by reflexivity. cbn. rewrite Hrec. cbn. exact Hb.
Qed.

(** While the camera stream stays as it is, the Recording badge is shown
    exactly while the recorder records: if the flag and the recorder
    agree before a run of clicks, chunks, ticks and account changes, they
    agree after it. *)
Theorem badge_follows_recorder ms (evs : list Event) :
  forall c : Component,
  badge_matches_recorder c ->
  forallb keeps_stream evs = true ->
  badge_matches_recorder (fst (run ms c evs)).
Proof.
  induction evs as [|ev evs IH]; intros c Hb Hk; [exact Hb|].
  cbn [forallb] in Hk. apply andb_prop in Hk as [Hev Hevs].
  cbn [run]. pose proof (badge_step ms c ev Hb Hev) as Hstep.
  destruct (step ms c ev) as [c1 a1]. cbn [fst] in Hstep.
  specialize (IH c1 Hstep Hevs).
  destruct (run ms c1 evs) as [c2 a2]. exact IH.
Qed.

End DashcamMore.

(** ** DashcamView: the clock *)

Section ClockFacts.
Import DashcamView.

Lemma cut_after (a b : string) :
  cut_at_colon a = None ->
  cut_at_colon (a ++ String ":" b) = Some (a, b).
Proof.
  induction a as [|c a IH]; intros H; [reflexivity|].
  simpl in *. destruct (Ascii.eqb c ":"); [discriminate H|].
  destruct (cut_at_colon a) as [[x y]|]; [discriminate H|].
  rewrite IH by reflexivity. reflexivity.
Qed.

Lemma cut_app_none (a b : string) :
  cut_at_colon a = None -> cut_at_colon b = None ->
  cut_at_colon (a ++ b) = None.
Proof.
  induction a as [|c a IH]; intros Ha Hb; [exact Hb|].
  simpl in *. destruct (Ascii.eqb c ":"); [discriminate Ha|].
  destruct (cut_at_colon a) as [[x y]|]; [discriminate Ha|].
  rewrite IH by auto. reflexivity.
Qed.

Lemma digits_no_colon (d : Decimal.uint) :
  cut_at_colon (NilEmpty.string_of_uint d) = None.
Proof.
  induction d; simpl; try rewrite IHd; reflexivity.
Qed.

Lemma zeros_no_colon (n : nat) : cut_at_colon (zeros n) = None.
Proof. induction n; simpl; [|rewrite IHn]; reflexivity. Qed.

(** A number that is not negative renders as digits and reads back as
    itself. *)
Lemma render_nonneg (z : Z) :
  0 <= z ->
  cut_at_colon (to_string (JNum z)) = None /\
  exists d, NilZero.int_of_string (to_string (JNum z)) = Some (Decimal.Pos d) /\
            Z.of_int (Decimal.Pos d) = z.
Proof.
  intros Hz. cbn [to_string]. split.
  - destruct z as [|p|p]; [reflexivity| |lia].
    simpl. unfold NilZero.string_of_uint.
    destruct (Pos.to_uint p); try reflexivity; apply digits_no_colon.
  - assert (Hpos : exists d, Z.to_int z = Decimal.Pos d /\ d <> Decimal.Nil).
    { destruct z as [|p|p]; [eexists; split; [reflexivity|discriminate]| |lia].
      eexists. split; [reflexivity|]. apply DecimalPos.Unsigned.to_uint_nonnil. }
    destruct Hpos as (d & Hd & Hnil). exists d. split.
    + rewrite Hd. apply NilZero.isi; [intros [= ->]; auto|discriminate].
    + rewrite <- Hd. apply DecimalZ.of_to.
Qed.

Lemma read_zero_prefix (s : string) (d : Decimal.uint) :
  NilZero.int_of_string s = Some (Decimal.Pos d) ->
  NilZero.int_of_string (String "0" s) = Some (Decimal.Pos (Decimal.D0 d)) /\
  Z.of_int (Decimal.Pos (Decimal.D0 d)) = Z.of_int (Decimal.Pos d).
Proof.
  intros H. split; [|reflexivity].
  destruct s as [|a s]; [discriminate H|].
  unfold NilZero.int_of_string in *.
  destruct (Ascii.eqb a "-").
  - destruct (NilZero.uint_of_string s); discriminate H.
  - change (Ascii.eqb "0" "-") with false. cbv iota.
    unfold NilZero.uint_of_string in *.
    change (NilEmpty.uint_of_string (String "0" (String a s)))
      with (uint_of_char "0" (NilEmpty.uint_of_string (String a s))).
    destruct (NilEmpty.uint_of_string (String a s)) as [d'|];
      [|discriminate H].
    injection H as ->. reflexivity.
Qed.

(** A padded number still has no colon and reads back as the number. *)
Lemma padded_nonneg (z : Z) :
  0 <= z ->
  cut_at_colon (padStart0 2 (to_string (JNum z))) = None /\
  exists d, NilZero.int_of_string (padStart0 2 (to_string (JNum z)))
              = Some (Decimal.Pos d) /\
            Z.of_int (Decimal.Pos d) = z.
Proof.
  intros Hz. destruct (render_nonneg z Hz) as (Hcut & d & Hread & Hval).
  unfold padStart0. split.
  - apply cut_app_none; [apply zeros_no_colon|exact Hcut].
  - destruct (to_string (JNum z)) as [|a [|b s]] eqn:Hs.
    + discriminate Hread.
    + cbn [String.length Nat.sub zeros append].
      destruct (read_zero_prefix _ _ Hread) as [H1 H2].
      eexists. split; [exact H1|]. rewrite H2. exact Hval.
    + cbn [String.length Nat.sub zeros append]. eauto.
Qed.

(** The clock reads back as the seconds it shows: for every count of
    seconds from 0 to [MAX_SAFE_INTEGER], cutting [formatTime] at its
    colon and reading the two numbers gives the count again, so two
    counts in this range never show the same clock. *)
Theorem formatTime_reads_back (seconds : Z) :
  0 <= seconds <= MAX_SAFE_INTEGER ->
  read_clock (formatTime seconds) = Some seconds /\
  forall other, 0 <= other <= MAX_SAFE_INTEGER ->
    formatTime other = formatTime seconds -> other = seconds.
Proof.
  assert (Hread : forall s, 0 <= s -> read_clock (formatTime s) = Some s).
  { intros s Hs. unfold read_clock, formatTime.
    assert (Hm : 0 <= s / 60) by (apply Z.div_pos; lia).
    assert (Hr : 0 <= Z.rem s 60) by (apply Z.rem_nonneg; lia).
    destruct (padded_nonneg _ Hm) as (Hcut & dm & Hdm & Hvm).
    destruct (padded_nonneg _ Hr) as (_ & ds & Hds & Hvs).
    change (":" ++ padStart0 2 (to_string (JNum (Z.rem s 60))))%string
      with (String ":" (padStart0 2 (to_string (JNum (Z.rem s 60))))).
    rewrite (cut_after _ _ Hcut), Hdm, Hds, Hvm, Hvs.
    f_equal. rewrite Z.rem_mod_nonneg by lia.
    pose proof (Z.div_mod s 60). lia. }
  intros [Hs _]. split; [apply Hread, Hs|].
  intros other [Ho _] Heq.
  pose proof (Hread other Ho) as H1. rewrite Heq, (Hread _ Hs) in H1.
  congruence.
Qed.

(** Witness: one hour, one minute and one second. *)
Lemma formatTime_reads_back_witness :
  formatTime 3661 = "61:01" /\ read_clock (formatTime 3661) = Some 3661.
Proof.
  split; [reflexivity|].
  apply (formatTime_reads_back 3661). unfold MAX_SAFE_INTEGER. lia.
Defined.

End ClockFacts.

(** ** DashcamView: clicks and the wallet *)

Section DashcamGuards.
Import DashcamView.

Lemma apply_keeps_account (l : list action) (r : Render) :
  account (fold_left apply l r) = account r.
Proof.
  revert r. induction l as [|x l IH]; intros r; [reflexivity|].
  cbn. rewrite IH. destruct x; reflexivity.
Qed.

Lemma disconnected_step ms (c : Component) (rec : Recorder) (ev : Event) :
  truthy (account (current c)) = false ->
  isRecording (current c) = true ->
  mediaRecorderRef c = Some rec ->
  state rec = recording -> flushing rec = false ->
  without_wallet ev = true ->
  exists rec',
    truthy (account (current (fst (step ms c ev)))) = false /\
    isRecording (current (fst (step ms c ev))) = true /\
    mediaRecorderRef (fst (step ms c ev)) = Some rec' /\
    state rec' = recording /\ flushing rec' = false /\
    ondataavailable rec' = ondataavailable rec /\
    length (posts (snd (step ms c ev))) = chunks_delivered [ev].
Proof.
  destruct c as [cur ref]. cbn [current mediaRecorderRef].
  intros Ha Hr -> Hs Hf Hw.
  destruct ev as [[st|]|a|[st|]| |size now resp| ]; try discriminate Hw;
    cbn [step current mediaRecorderRef requestCameraPermission].
  - rewrite commit_same by reflexivity. cbn. rewrite eqb_reflx. cbn.
    exists rec. auto 10.
  - rewrite Ha. cbn. exists rec. auto 10.
  - rewrite Ha. cbn. exists rec. auto 10.
  - unfold is_recording. rewrite Hs, Hf. cbn [orb].
    set (acts := if 0 <? size then _ else _).
    destruct (apply_keeps_stream acts cur) as [Hc Hrec].
    pose proof (apply_keeps_account acts cur) as Hacct.
    rewrite commit_same by exact Hc. cbn [fst snd current mediaRecorderRef].
    rewrite !Hrec, eqb_reflx. cbn [negb]. exists (delivered rec).
    rewrite Hacct, app_nil_r. repeat split; auto.
    unfold chunks_delivered. cbn [List.filter]. subst acts.
    destruct (0 <? size); [|reflexivity].
    rewrite uploadClip_posts. reflexivity.
  - rewrite Hr. rewrite commit_same by reflexivity. cbn. rewrite Hr. cbn.
    exists rec. auto 10.
Qed.

(** Once the wallet is disconnected during a recording, nothing the user
    or the recorder does on the page ends it: through every run without a
    change of account or a new camera stream, the recording flag stays
    set, the recorder keeps recording with the same handler, and each
    blob that is not empty is posted. *)
Theorem recording_goes_on_without_wallet ms (evs : list Event) :
  forall (c : Component) (rec : Recorder),
  truthy (account (current c)) = false ->
  isRecording (current c) = true ->
  mediaRecorderRef c = Some rec ->
  state rec = recording -> flushing rec = false ->
  forallb without_wallet evs = true ->
  exists rec',
    isRecording (current (fst (run ms c evs))) = true /\
    mediaRecorderRef (fst (run ms c evs)) = Some rec' /\
    state rec' = recording /\
    ondataavailable rec' = ondataavailable rec /\
    length (posts (snd (run ms c evs))) = chunks_delivered evs.
Proof.
  induction evs as [|ev evs IH]; intros c rec Ha Hr Href Hs Hf Hw.
  - exists rec. repeat split; auto.
  - cbn [forallb] in Hw. apply andb_prop in Hw as [Hev Hevs].
    destruct (disconnected_step ms c rec ev Ha Hr Href Hs Hf Hev)
      as (rec1 & Ha1 & Hr1 & Href1 & Hs1 & Hf1 & Hh1 & Hn1).
    cbn [run]. destruct (step ms c ev) as [c1 a1]. cbn [fst snd] in *.
    destruct (IH c1 rec1 Ha1 Hr1 Href1 Hs1 Hf1 Hevs)
      as (rec2 & Hr2 & Href2 & Hs2 & Hh2 & Hn2).
    destruct (run ms c1 evs) as [c2 a2]. cbn [fst snd] in *.
    exists rec2. repeat split; auto; [congruence|].
    rewrite posts_app, length_app, Hn1, Hn2.
    unfold chunks_delivered. cbn [List.filter].
    destruct ev; cbn; try reflexivity.
    destruct (0 <? size); reflexivity.
Qed.

(** Witness: after the disconnection the user clicks Stop and Start, the
    clock ticks, and two chunks arrive, one of them empty. *)
Lemma recording_goes_on_without_wallet_witness :
  truthy (account (current recording_disconnected)) = false /\
  isRecording
    (current (fst (run true recording_disconnected
                     [ClickStop; Tick; DataAvailable 1 1000 (accepted 7);
                      ClickStart Denied; DataAvailable 0 2000 Rejected])))
    = true /\
  length
    (posts (snd (run true recording_disconnected
                   [ClickStop; Tick; DataAvailable 1 1000 (accepted 7);
                    ClickStart Denied; DataAvailable 0 2000 Rejected])))
    = 1%nat.
Proof.
  split; [reflexivity|].
  destruct (recording_goes_on_without_wallet true
              [ClickStop; Tick; DataAvailable 1 1000 (accepted 7);
               ClickStart Denied; DataAvailable 0 2000 Rejected]
              recording_disconnected
              {| stream := 1; state := recording; flushing := false;
                 ondataavailable :=
                   {| isRecording := false; recordingTime := 0;
                      sessionClips := 0; sessionId := JNull;
                      hasPermission := true; cameraStream := Some 1%nat;
                      account := wallet |} |}
              eq_refl eq_refl eq_refl eq_refl eq_refl eq_refl)
    as (rec' & Hr & _ & _ & _ & Hn).
  split; [exact Hr|exact Hn].
Defined.

(** With the camera granted but no recorder at hand (none could be
    created for the stream), a click on Start does not begin a recording:
    the page stays exactly as it was, recording flag, session id and
    counter included, and the one toast raised is 'Camera Not Ready'.
    Nothing is awaited on this path, so the camera's answer plays no
    part. *)
Theorem start_needs_a_recorder ms (c : Component) (cam : CameraOutcome) :
  truthy (account (current c)) = true ->
  isRecording (current c) = false ->
  hasPermission (current c) = true ->
  mediaRecorderRef c = None ->
  fst (step ms c (ClickStart cam)) = c /\
  toasts (snd (step ms c (ClickStart cam))) = ["Camera Not Ready"].
Proof.
  destruct c as [cur ref]. cbn [current mediaRecorderRef].
  intros Ha Hr Hp ->. cbn [step current mediaRecorderRef].
  rewrite Ha, Hr. cbn [andb negb]. unfold startRecording.
  cbn [current mediaRecorderRef]. rewrite Hp. cbn [negb].
  rewrite commit_same by reflexivity. cbn. rewrite eqb_reflx.
  split; reflexivity.
Qed.

(** Witness: the camera is granted where no MIME type is supported, then
    Start is clicked. *)
Lemma start_needs_a_recorder_witness :
  mediaRecorderRef camera_without_recorder = None /\
  isRecording
    (current (fst (step false camera_without_recorder (ClickStart Denied))))
    = false /\
  toasts (snd (step false camera_without_recorder (ClickStart Denied)))
    = ["Camera Not Ready"].
Proof.
  destruct (start_needs_a_recorder false camera_without_recorder Denied
              eq_refl eq_refl eq_refl eq_refl) as [Hc Ht].
  split; [reflexivity|]. split; [rewrite Hc; reflexivity|exact Ht].
Defined.

(** Witness of [uploads_read_the_captured_render]: the wallet is
    disconnected during the recording and a chunk arrives. *)
Lemma uploads_read_the_captured_render_witness :
  exists now,
    {| video := "dashcam_1000.webm";
       wallet_address := "0x71C7656EC7ab88b098defB751B7401B5f6d8976F";
       sequence_number := "0"; session_id := "null";
       is_first_chunk := "true"; is_last_chunk := "true" |}
    = filled_form
        {| isRecording := false; recordingTime := 0; sessionClips := 0;
           sessionId := JNull; hasPermission := true;
           cameraStream := Some 1%nat; account := wallet |} now.
Proof.
  apply (uploads_read_the_captured_render true
           [AccountChanged JUndef; DataAvailable 1 1000 (accepted 7)]
           recording_started
           {| stream := 1; state := recording; flushing := false;
              ondataavailable :=
                {| isRecording := false; recordingTime := 0;
                   sessionClips := 0; sessionId := JNull;
                   hasPermission := true; cameraStream := Some 1%nat;
                   account := wallet |} |}
           eq_refl eq_refl).
  vm_compute. left. reflexivity.
Defined.

(** Witness of [badge_follows_recorder]: Start, a tick, a chunk, Stop. *)
Lemma badge_follows_recorder_witness :
  badge_matches_recorder camera_ready /\
  badge_matches_recorder
    (fst (run true camera_ready
            [ClickStart Denied; Tick; DataAvailable 1 1000 (accepted 7);
             ClickStop])).
Proof.
  split; [reflexivity|].
  apply (badge_follows_recorder true); reflexivity.
Defined.

End DashcamGuards.

(** ** The blockchain-proof page: every way [fetchData] can go *)

Section PageMore.
Import BlockchainProof.

Variable toISOString : Z -> string.

Lemma imageUrl_silent {E} (item : gmap string jsval) :
  fst (imageUrl (E:=E) item) = [].
Proof.
  unfold imageUrl.
  destruct (truthy (get item "image") && is_string (get item "image"));
    [reflexivity|].
  destruct (truthy (js_or (get item "cid") (get item "image_cid")));
    [reflexivity|].
  destruct (truthy (get item "metadata_uri")); [|reflexivity].
  destruct (get item "metadata_uri"); try reflexivity.
  cbn [call_startsWith bind ret app fst].
  destruct (startsWith "ipfs://" s); reflexivity.
Qed.

Lemma processItem_silent {E} account now (item : gmap string jsval) :
  fst (processItem toISOString (E:=E) account now item) = [].
Proof.
  unfold processItem. pose proof (imageUrl_silent (E:=E) item) as H.
  destruct (imageUrl item) as [l [e|v]]; cbn in *; subst; reflexivity.
Qed.


Lemma processItem_unusable {E} account now (item : gmap string jsval) :
  metadata_uri_usable item = false ->
  exists e, processItem toISOString (E:=E) account now item = ([], inl e).
Proof.
  unfold metadata_uri_usable, processItem, imageUrl. intros H.
  apply orb_false_elim in H as [H Hstr].
  apply orb_false_elim in H as [H Htr].
  apply orb_false_elim in H as [Himg Hcid].
  rewrite Himg, Hcid. apply negb_false_iff in Htr. rewrite Htr.
  destruct (get item "metadata_uri"); try discriminate Hstr; eauto.
Qed.

(** The traversal emits nothing; it returns one record per item or stops
    at the first exception. *)
Lemma map_items_outcome account now (data : list (gmap string jsval)) :
  (exists txs,
     map_items (processItem toISOString (E:=action) account now) data
       = ([], inr txs) /\ length txs = length data) \/
  (exists e,
     map_items (processItem toISOString (E:=action) account now) data
       = ([], inl e)).
Proof.
  induction data as [|item data IH]; [left; exists []; split; reflexivity|].
  cbn [map_items].
  pose proof (processItem_silent (E:=action) account now item) as Hs.
  destruct (processItem toISOString account now item) as [l [e|tx]];
    cbn in Hs; subst l.
  - right. exists e. reflexivity.
  - destruct IH as [(txs & -> & Hlen)|(e & ->)].
    + left. exists (tx :: txs). split; [reflexivity|]. cbn. lia.
    + right. exists e. reflexivity.
Qed.


Lemma map_items_unusable account now (data : list (gmap string jsval)) :
  Exists (fun item => metadata_uri_usable item = false) data ->
  exists e,
    map_items (processItem toISOString (E:=action) account now) data
      = ([], inl e).
Proof.
  induction 1 as [item data Hbad|item data _ IH].
  - destruct (processItem_unusable (E:=action) account now item Hbad)
      as (e & He).
    exists e. cbn [map_items]. rewrite He. reflexivity.
  - destruct IH as (e & He). cbn [map_items].
    pose proof (processItem_silent (E:=action) account now item) as Hs.
    destruct (processItem toISOString account now item) as [l [e'|tx]];
      cbn in Hs; subst l.
    + exists e'. reflexivity.
    + rewrite He. exists e. reflexivity.
Qed.

Lemma wallet_nfts_returns active account be :
  exists l nfts,
    wallet_nfts active account be = (l, inr nfts) /\
    forallb is_console l = true.
Proof.
  unfold wallet_nfts.
  destruct (active && truthy account); [|exists [], []; split; reflexivity].
  destruct (nfts be (to_string account)) as [|[l|]]; cbn; eauto.
Qed.

Lemma verify_all_returns be (hs : list jsval) :
  exists l,
    verify_all be hs = (l, inr (kept_answers be hs)) /\
    forallb is_console l = true.
Proof.
  induction hs as [|h hs (l & Hl & Hc)]; [exists []; split; reflexivity|].
  cbn [verify_all kept_answers flat_map]. rewrite Hl. unfold verify_one.
  destruct (verify_tx be (to_string h)) as [|[d|]]; cbn;
    try destruct (truthy (get d "exists_on_blockchain")); cbn;
    rewrite ?app_nil_r; eexists; (split; [reflexivity|]); cbn; exact Hc.
Qed.

Lemma kept_answers_length be (hs : list jsval) :
  (length (kept_answers be hs) <= length hs)%nat.
Proof.
  induction hs as [|h hs IH]; [reflexivity|].
  cbn [kept_answers flat_map]. rewrite length_app.
  fold (kept_answers be hs).
  destruct (verify_tx be (to_string h)) as [|[d|]]; cbn;
    try destruct (truthy (get d "exists_on_blockchain")); cbn; lia.
Qed.

Lemma use_mock_acts account now loadTime :
  exists txs,
    length txs = 3%nat /\
    map tokenId txs = [JNum 1; JNum 2; JNum 3] /\
    forall why,
      use_mock toISOString account now loadTime why
      = ([Console why; SetTransactions txs; SetStats 3%nat;
          Toast "Using sample data"], inr tt).
Proof.
  destruct (mock_processed toISOString account now loadTime)
    as (txs & Hm & Htok & _).
  assert (Hlen : length txs = 3%nat).
  { rewrite <- (length_map tokenId), Htok. reflexivity. }
  exists txs. split; [exact Hlen|]. split; [exact Htok|].
  intros why. unfold use_mock, processTransactionData. rewrite Hm.
  cbn. rewrite Hlen. reflexivity.
Qed.

Lemma console_prefix (l rest : list action) (ui : UI) :
  forallb is_console l = true ->
  fold_left apply (l ++ rest) ui = fold_left apply rest ui.
Proof.
  intros H. rewrite fold_left_app, (console_only_fold l ui H). reflexivity.
Qed.

(** What the body of [fetchData] leaves behind, whatever the server does:
    console lines, then one list of transactions that is not empty with
    its count, then at most the sample-data toast. *)
Lemma fetchData_shape active account now loadTime be :
  exists pre txs extra,
    fetchData toISOString active account now loadTime be
      = (((SetLoading true
           :: pre ++ SetTransactions txs :: SetStats (length txs) :: extra)
          ++ [SetLoading false])%list, inr tt) /\
    forallb is_console pre = true /\
    txs <> [] /\
    (extra = [] \/ extra = [Toast "Using sample data"]) /\
    (snd (wallet_nfts active account be) = inr [] ->
     (length txs <= 5)%nat).
Proof.
  destruct (wallet_nfts_returns active account be) as (l1 & nfts & E1 & Hc1).
  destruct (use_mock_acts account now loadTime) as (mock & Hlen & _ & Hmock).
  assert (Hne : mock <> []) by (intros ->; discriminate Hlen).
  unfold fetchData. rewrite E1.
  cbn [bind try_catch emit ret app].
  destruct nfts as [|nft nfts].
  - cbn [length Nat.ltb Nat.leb].
    destruct (tx_hashes_returns be) as (l2 & hs & E2 & Hc2). rewrite E2.
    cbn [bind try_catch emit ret app].
    destruct (verify_all_returns be (take 5 hs)) as (l3 & E3 & Hc3).
    rewrite E3. cbn [bind try_catch emit ret app].
    pose proof (kept_answers_length be (take 5 hs)) as Hk.
    rewrite length_take in Hk.
    destruct (kept_answers be (take 5 hs)) as [|d ds] eqn:Ek.
    + cbn [length Nat.ltb Nat.leb]. rewrite Hmock.
      cbn [bind try_catch try_finally emit ret app].
      exists (l1 ++ l2 ++ l3 ++ [Console "Using mock transaction data"])%list,
        mock, [Toast "Using sample data"].
      rewrite Hlen. split.
      * rewrite <- !app_assoc. reflexivity.
      * rewrite !forallb_app, Hc1, Hc2, Hc3.
        repeat split; auto; lia.
    + cbn [length Nat.ltb Nat.leb]. unfold processTransactionData.
      destruct (map_items_outcome account now (d :: ds))
        as [(txs & -> & Hl)|(e & ->)].
      * cbn [bind try_catch try_finally emit ret app].
        exists (l1 ++ l2 ++ l3)%list, txs, [].
        split; [rewrite <- !app_assoc; reflexivity|].
        rewrite !forallb_app, Hc1, Hc2, Hc3.
        repeat split; auto.
        -- intros ->. discriminate Hl.
        -- intros _. rewrite Hl. lia.
      * cbn [bind try_catch try_finally emit ret app]. rewrite Hmock.
        cbn [bind try_catch try_finally emit ret app].
        exists (l1 ++ l2 ++ l3 ++
                [Console "Error fetching transaction data:";
                 Console "Using mock transaction data due to error"])%list,
          mock, [Toast "Using sample data"].
        rewrite Hlen. split; [rewrite <- !app_assoc; reflexivity|].
        rewrite !forallb_app, Hc1, Hc2, Hc3.
        repeat split; auto; lia.
  - cbn [length Nat.ltb Nat.leb]. unfold processTransactionData.
    destruct (map_items_outcome account now (nft :: nfts))
      as [(txs & -> & Hl)|(e & ->)].
    + cbn [bind try_catch try_finally emit ret app].
      exists l1, txs, []. split; [reflexivity|].
      repeat split; auto.
      * intros ->. discriminate Hl.
      * cbn. discriminate.
    + cbn [bind try_catch try_finally emit ret app]. rewrite Hmock.
      cbn [bind try_catch try_finally emit ret app].
      exists (l1 ++ [Console "Error in blockchain proof component:";
                     Console "Using mock transaction data due to error"])%list,
        mock, [Toast "Using sample data"].
      rewrite Hlen. split; [rewrite <- !app_assoc; reflexivity|].
      rewrite !forallb_app, Hc1.
      repeat split; auto.
Qed.

(** Whatever the server answers or fails to answer, [fetchData] ends
    without an exception with the spinner off and a list of transactions
    that is not empty: the 'No blockchain transactions found' branch of
    the panel is never taken after a load.  The count shown is the length
    of the list, at most one toast is raised, and when the wallet gave no
    NFT at most five transactions are listed. *)
Theorem fetchData_never_ends_empty
    (active : bool) (account : jsval) (now loadTime : Z) (be : Backend) :
  let result := fetchData toISOString active account now loadTime be in
  let ui := fold_left apply (fst result) initial in
  snd result = inr tt /\
  loading ui = false /\
  (exists tx txs, view ui = TransactionFlow (tx :: txs)) /\
  totalNFTs ui = length (transactions ui) /\
  (toasts ui = [] \/ toasts ui = ["Using sample data"]) /\
  (snd (wallet_nfts active account be) = inr [] ->
   (length (transactions ui) <= 5)%nat).
Proof.
  cbv zeta.
  destruct (fetchData_shape active account now loadTime be)
    as (pre & txs & extra & -> & Hc & Hne & Hextra & Hfive).
  cbn [fst snd].
  assert (Hui : fold_left apply
                  ((SetLoading true
                    :: pre ++ SetTransactions txs :: SetStats (length txs)
                       :: extra) ++ [SetLoading false])%list initial
                = {| transactions := txs; loading := false;
                     totalNFTs := length txs;
                     toasts := match extra with
                               | [] => []
                               | _ => ["Using sample data"]
                               end |}).
  { cbn [app fold_left]. rewrite <- app_assoc.
    rewrite console_prefix by exact Hc.
    destruct Hextra as [-> | ->]; reflexivity. }
  rewrite Hui. unfold view. cbn [transactions loading totalNFTs toasts].
  destruct txs as [|tx txs]; [congruence|].
  repeat split; eauto.
  destruct Hextra as [-> | ->]; auto.
Qed.

End PageMore.

Section PagePlan.
Import BlockchainProof.

Variable toISOString : Z -> string.

Ltac settle_ui :=
  repeat first
    [ rewrite fold_left_app
    | rewrite console_only_fold by assumption
    | progress cbn [fold_left apply app transactions loading
                    totalNFTs toasts initial] ].

(** The list that [fetchData] processes first: the wallet's NFTs if there
    are any, else the answers kept for the first five hashes.  It shows
    that list when it is not empty and processes without an exception,
    and the samples with their toast otherwise. *)
Lemma fetchData_plan active account now loadTime be
    (nfts : list (gmap string jsval)) (hashes : list jsval) :
  snd (wallet_nfts active account be) = inr nfts ->
  snd (tx_hashes be) = inr hashes ->
  let candidates :=
    match nfts with
    | [] => kept_answers be (take 5 hashes)
    | _ :: _ => nfts
    end in
  let ui :=
    fold_left apply
      (fst (fetchData toISOString active account now loadTime be)) initial in
  match candidates,
        snd (map_items (processItem toISOString (E:=action) account now)
               candidates) with
  | _ :: _, inr txs =>
      transactions ui = txs /\ toasts ui = [] /\
      totalNFTs ui = length candidates
  | _, _ =>
      snd (map_items (processItem toISOString (E:=action) account now)
             (mockTransactions toISOString loadTime))
        = inr (transactions ui) /\
      toasts ui = ["Using sample data"] /\
      map tokenId (transactions ui) = [JNum 1; JNum 2; JNum 3]
  end.
Proof.
  intros Hn Hh. cbv zeta.
  destruct (wallet_nfts_returns active account be) as (l1 & nfts' & E1 & Hc1).
  rewrite E1 in Hn. cbn in Hn. injection Hn as ->.
  destruct (tx_hashes_returns be) as (l2 & hs & E2 & Hc2).
  rewrite E2 in Hh. cbn in Hh. injection Hh as ->.
  destruct (verify_all_returns be (take 5 hashes)) as (l3 & E3 & Hc3).
  destruct (mock_processed toISOString account now loadTime)
    as (mock & Hm & Htok & _).
  destruct (use_mock_acts toISOString account now loadTime)
    as (mock' & Hlen & _ & Hmock).
  assert (mock' = mock) as ->.
  { specialize (Hmock ""). unfold use_mock, processTransactionData in Hmock.
    rewrite Hm in Hmock. cbn in Hmock. congruence. }
  rewrite Hm. cbn [snd].
  unfold fetchData. rewrite E1. cbn [bind try_catch emit ret app].
  destruct nfts as [|nft nfts].
  - cbn [length Nat.ltb Nat.leb]. rewrite E2.
    cbn [bind try_catch emit ret app]. rewrite E3.
    cbn [bind try_catch emit ret app].
    destruct (kept_answers be (take 5 hashes)) as [|d ds] eqn:Ek.
    + cbn [length Nat.ltb Nat.leb map_items ret snd]. rewrite Hmock.
      cbn [bind try_catch try_finally emit ret app fst].
      settle_ui. auto.
    + cbn [length Nat.ltb Nat.leb]. unfold processTransactionData.
      destruct (map_items_outcome toISOString account now (d :: ds))
        as [(txs & -> & Hl)|(e & ->)]; cbn [snd].
      * cbn [bind try_catch try_finally emit ret app fst].
        settle_ui. auto.
      * cbn [bind try_catch try_finally emit ret app fst]. rewrite Hmock.
        cbn [bind try_catch try_finally emit ret app fst].
        settle_ui. auto.
  - cbn [length Nat.ltb Nat.leb]. unfold processTransactionData.
    destruct (map_items_outcome toISOString account now (nft :: nfts))
      as [(txs & -> & Hl)|(e & ->)]; cbn [snd].
    + cbn [bind try_catch try_finally emit ret app fst].
      settle_ui. auto.
    + cbn [bind try_catch try_finally emit ret app fst]. rewrite Hmock.
      cbn [bind try_catch try_finally emit ret app fst].
      settle_ui. auto.
Qed.

End PagePlan.

Section PagePaths.
Import BlockchainProof.

Variable toISOString : Z -> string.





(** When processing one NFT of the wallet throws, none of the wallet's
    NFTs is listed: the panel shows the three samples with the
    sample-data toast. *)
Theorem one_odd_nft_hides_the_wallet
    (active : bool) (account : jsval) (now loadTime : Z) (be : Backend)
    (nfts : list (gmap string jsval)) :
  snd (wallet_nfts active account be) = inr nfts ->
  Exists (fun item => metadata_uri_usable item = false) nfts ->
  let ui :=
    fold_left apply
      (fst (fetchData toISOString active account now loadTime be)) initial in
  map tokenId (transactions ui) = [JNum 1; JNum 2; JNum 3] /\
  snd (map_items (processItem toISOString (E:=action) account now)
         (mockTransactions toISOString loadTime))
    = inr (transactions ui) /\
  toasts ui = ["Using sample data"].
Proof.
  intros Hn Hbad. cbv zeta.
  destruct (tx_hashes_returns be) as (l2 & hs & E2 & _).
  pose proof (fetchData_plan toISOString active account now loadTime be
                nfts hs Hn) as Hplan.
  rewrite E2 in Hplan. specialize (Hplan eq_refl). cbv beta iota zeta in Hplan.
  destruct nfts as [|nft nfts]; [inversion Hbad|].
  destruct (map_items_unusable toISOString account now _ Hbad) as (e & He).
  rewrite He in Hplan. cbn [snd] in Hplan.
  destruct Hplan as (Hm & Htoast & Htok). auto.
Qed.

(** The hashes to verify come from [/api/recent-transactions] whenever it
    answers with a list that is not empty, entries without a [hash]
    included (they stay [undefined]); only otherwise are they the truthy
    [tx_hash] fields of [/api/query-media].  A request that fails gives no
    hash, and nothing but console lines is emitted. *)
Theorem tx_hashes_sources (be : Backend) :
  snd (tx_hashes be) =
    inr (match recent_transactions be with
         | Resolved (Some (tx :: txs)) =>
             map (fun tx => get tx "hash") (tx :: txs)
         | _ =>
             match query_media be with
             | Resolved (Some results) =>
                 List.filter truthy
                   (map (fun media => get media "tx_hash") results)
             | _ => []
             end
         end) /\
  forallb is_console (fst (tx_hashes be)) = true.
Proof.
  unfold tx_hashes, recent_hashes, media_hashes.
  destruct (recent_transactions be) as [|[[|tx txs]|]]; cbn;
    destruct (query_media be) as [|[rs|]]; cbn; split; reflexivity.
Qed.

End PagePaths.

Section PagePathExamples.
Import BlockchainProof.



(** Witness: the wallet's only NFT has a numeric [metadata_uri]. *)
Lemma one_odd_nft_hides_the_wallet_witness :
  let ui :=
    fold_left apply
      (fst (fetchData (fun _ => "2025-01-01T00:00:00.000Z") true
              (JStr "0x71C7656EC7ab88b098defB751B7401B5f6d8976F")
              0 0 backend_with_odd_nft))
      initial in
  map tokenId (transactions ui) = [JNum 1; JNum 2; JNum 3] /\
  snd (map_items
         (processItem (fun _ => "2025-01-01T00:00:00.000Z") (E:=action)
            (JStr "0x71C7656EC7ab88b098defB751B7401B5f6d8976F") 0)
         (mockTransactions (fun _ => "2025-01-01T00:00:00.000Z") 0))
    = inr (transactions ui) /\
  toasts ui = ["Using sample data"].
Proof.
  cbv zeta.
  apply (one_odd_nft_hides_the_wallet
           (fun _ => "2025-01-01T00:00:00.000Z") true
           (JStr "0x71C7656EC7ab88b098defB751B7401B5f6d8976F") 0 0
           backend_with_odd_nft [ {[ "metadata_uri" := JNum 5 ]} ]).
  - reflexivity.
  - constructor. reflexivity.
Defined.

End PagePathExamples.

(** ** Shortened hashes and addresses *)

Section StringFacts.

Lemma string_app_cons (c : ascii) (a b : string) :
  (String c a ++ b)%string = String c (a ++ b).
Proof. reflexivity. Qed.

Lemma string_length_app (a b : string) :
  String.length (a ++ b) = (String.length a + String.length b)%nat.
Proof.
  induction a as [|c a IH]; [reflexivity|].
  rewrite string_app_cons. simpl. now rewrite IH.
Qed.

Lemma string_app_assoc (a b c : string) :
  ((a ++ b) ++ c)%string = (a ++ (b ++ c))%string.
Proof.
  induction a as [|x a IH]; [reflexivity|].
  rewrite !string_app_cons. now rewrite IH.
Qed.

Lemma substring_all (b : string) :
  String.substring 0 (String.length b) b = b.
Proof. induction b as [|c b IH]; simpl; [reflexivity|]. now rewrite IH. Qed.

Lemma substring_head (a b : string) :
  String.substring 0 (String.length a) (a ++ b) = a.
Proof.
  induction a as [|c a IH].
  - destruct b; reflexivity.
  - rewrite string_app_cons. simpl. now rewrite IH.
Qed.

Lemma substring_tail (a b : string) :
  String.substring (String.length a) (String.length b) (a ++ b) = b.
Proof.
  induction a as [|c a IH]; [apply substring_all|].
  rewrite string_app_cons. simpl. exact IH.
Qed.

Lemma substring_length (n m : nat) (s : string) :
  String.length (String.substring n m s)
  = Nat.min m (String.length s - n).
Proof.
  revert n m. induction s as [|c s IH]; intros [|n] [|m]; simpl;
    try reflexivity; rewrite ?IH; simpl; lia.
Qed.

Lemma clamp_nat (len n : nat) :
  clamp len (Z.of_nat n) = Nat.min n len.
Proof. unfold clamp. lia. Qed.

Lemma clamp_back (len n : nat) :
  clamp len (Z.of_nat len - Z.of_nat n) = (len - n)%nat.
Proof. unfold clamp. lia. Qed.

End StringFacts.

Section CardFacts.
Import BlockchainProof.

Context {E : Type}.

(** [formatTxHash] shows the first ten and the last eight characters of a
    hash, whatever lies between them. *)
Theorem formatTxHash_head_and_tail (head mid tail : string) :
  String.length head = 10%nat ->
  String.length tail = 8%nat ->
  formatTxHash (E:=E) (JStr (head ++ mid ++ tail))
  = ([], inr (head ++ "..." ++ tail)%string).
Proof.
  intros Hh Ht. unfold formatTxHash.
  assert (Htruthy : truthy (JStr (head ++ mid ++ tail)) = true).
  { destruct head as [|c head]; [discriminate Hh|reflexivity]. }
  rewrite Htruthy. cbn [negb]. unfold ret, substring_from, substring.
  set (s := (head ++ mid ++ tail)%string).
  assert (Hlen : String.length s = (18 + String.length mid)%nat).
  { unfold s. rewrite !string_length_app. lia. }
  change 0 with (Z.of_nat 0). change 10 with (Z.of_nat 10).
  change 8 with (Z.of_nat 8).
  rewrite !clamp_nat, clamp_back.
  replace (Nat.min (Nat.min 0 (String.length s))
             (Nat.min 10 (String.length s))) with 0%nat by lia.
  replace (Nat.max (Nat.min 0 (String.length s))
             (Nat.min 10 (String.length s)) - 0)%nat
    with (String.length head) by lia.
  replace (Nat.min (String.length s - 8)
             (Nat.min (String.length s) (String.length s)))
    with (String.length (head ++ mid)) by (rewrite string_length_app; lia).
  replace (Nat.max (String.length s - 8)
             (Nat.min (String.length s) (String.length s))
           - String.length (head ++ mid))%nat
    with (String.length tail) by (rewrite string_length_app; lia).
  unfold s. rewrite substring_head.
  rewrite <- (string_app_assoc head mid tail). rewrite (substring_tail (head ++ mid) tail). reflexivity.
Qed.

(** A record made from an item that carries neither [tx_hash] nor
    [txHash] shows an empty hash on its card, and its explorer link
    points to the transaction named undefined. *)
Theorem card_of_a_record_without_hash
    (toISOString : Z -> string) (account : jsval) (now : Z)
    (item : gmap string jsval) (l : list E) (tx : Tx) :
  processItem toISOString (E:=E) account now item = (l, inr tx) ->
  get item "tx_hash" = JUndef ->
  get item "txHash" = JUndef ->
  formatTxHash (E:=E) (txHash tx) = ([], inr "") /\
  getExplorerUrl (txHash tx)
  = "https://explorer.buildbear.io/tx/undefined?chainId=24750".
Proof.
  intros Hp H1 H2. unfold processItem in Hp.
  destruct (imageUrl item) as [l' [e|url]]; cbn in Hp; [discriminate Hp|].
  injection Hp as _ <-. cbn [txHash]. rewrite H1, H2.
  split; reflexivity.
Qed.

(** The label of the connect button and [formatAddress] shorten a
    non-empty address to the same text exactly when it has 42
    characters: the label cuts the tail at the fixed position 38,
    [formatAddress] four characters before the end. *)
Theorem accountLabel_agrees_with_formatAddress (s : string) :
  s <> "" ->
  Navbar.accountLabel (E:=E) true (JStr s) = formatAddress (JStr s)
  <-> String.length s = 42%nat.
Proof.
  intros Hne.
  assert (Htruthy : truthy (JStr s) = true).
  { cbn. destruct (String.eqb_spec s ""); [contradiction|reflexivity]. }
  unfold Navbar.accountLabel, formatAddress. rewrite Htruthy. cbn [negb].
  unfold ret, substring_from, substring.
  change 0 with (Z.of_nat 0). change 6 with (Z.of_nat 6).
  change 38 with (Z.of_nat 38). change 4 with (Z.of_nat 4).
  rewrite !clamp_nat, clamp_back.
  split.
  - intros Heq.
    assert (Hinv : forall a b : string,
               (([] : list E), (inr a : exn + string)) = ([], inr b) ->
               String.length a = String.length b)
      by (intros a b H; congruence).
    apply Hinv in Heq.
    rewrite !string_length_app, !substring_length in Heq.
    assert (Hpos : (0 < String.length s)%nat)
      by (destruct s; [contradiction|simpl; lia]).
    apply Nat.add_cancel_l in Heq. apply Nat.add_cancel_l in Heq.
    rewrite Nat.min_id in Heq.
    remember (String.length s) as n. clear - Heq Hpos. lia.
  - intros Hlen. rewrite Hlen. reflexivity.
Qed.

End CardFacts.

Section CardExamples.
Import BlockchainProof.

(** Witness: the hash of the first sample transaction. *)
Lemma formatTxHash_head_and_tail_witness :
  formatTxHash (E:=action)
    (JStr "0x3a8e7f5b2e0c5d1a9b8f7e6d5c4b3a2e1d0c9b8a7f6e5d4c3b2a1e0d9c8b7a6f5")
  = ([], inr "0x3a8e7f5b...c8b7a6f5"%string).
Proof.
  exact (formatTxHash_head_and_tail (E:=action) "0x3a8e7f5b"
           "2e0c5d1a9b8f7e6d5c4b3a2e1d0c9b8a7f6e5d4c3b2a1e0d9"
           "c8b7a6f5" eq_refl eq_refl).
Defined.

(** Witness: an NFT of which only the token id is known. *)
Lemma card_of_a_record_without_hash_witness :
  match processItem (fun _ => "2025-01-01T00:00:00.000Z") (E:=action)
          JNull 0 {[ "tokenId" := JNum 9 ]} with
  | (_, inr tx) =>
      formatTxHash (E:=action) (txHash tx) = ([], inr "") /\
      getExplorerUrl (txHash tx)
      = "https://explorer.buildbear.io/tx/undefined?chainId=24750"
  | (_, inl _) => False
  end.
Proof.
  pose proof (card_of_a_record_without_hash (E:=action)
                (fun _ => "2025-01-01T00:00:00.000Z") JNull 0
                {[ "tokenId" := JNum 9 ]}) as H.
  destruct (processItem (fun _ => "2025-01-01T00:00:00.000Z") (E:=action)
              JNull 0 {[ "tokenId" := JNum 9 ]}) as [l [e|tx]] eqn:Hp.
  - vm_compute in Hp. discriminate Hp.
  - apply (H l tx eq_refl); reflexivity.
Defined.

(** Witness: an address of 42 characters. *)
Lemma accountLabel_agrees_with_formatAddress_witness :
  Navbar.accountLabel (E:=action) true
    (JStr "0x71C7656EC7ab88b098defB751B7401B5f6d8976F")
  = formatAddress (JStr "0x71C7656EC7ab88b098defB751B7401B5f6d8976F") /\
  formatAddress (E:=action)
    (JStr "0x71C7656EC7ab88b098defB751B7401B5f6d8976F")
  = ([], inr "0x71C7...976F"%string).
Proof.
  split; [|reflexivity].
  apply (accountLabel_agrees_with_formatAddress (E:=action)
           "0x71C7656EC7ab88b098defB751B7401B5f6d8976F");
    [discriminate|reflexivity].
Defined.

End CardExamples.

(** ** Gallery: the clips of a session and fetchMedia *)

Section GalleryFacts.
Import Gallery.

Context {E : Type}.

Lemma insert_perm (c : Chunk) (l : list Chunk) :
  Permutation (insert c l) (c :: l).
Proof.
  induction l as [|d l IH]; cbn [insert]; [reflexivity|].
  destruct (sequence_number c <=? sequence_number d); [reflexivity|].
  rewrite IH. apply perm_swap.
Qed.

Lemma sort_chunks_perm (l : list Chunk) : Permutation (sort_chunks l) l.
Proof.
  induction l as [|c l IH]; [reflexivity|].
  change (sort_chunks (c :: l)) with (insert c (sort_chunks l)).
  rewrite insert_perm, IH. reflexivity.
Qed.

Lemma insert_sorted (c : Chunk) (l : list Chunk) :
  StronglySorted by_number l -> StronglySorted by_number (insert c l).
Proof.
  induction 1 as [|d l Hs IH Hd]; cbn [insert].
  - repeat constructor.
  - destruct (Z.leb_spec (sequence_number c) (sequence_number d)) as [Hle|Hgt].
    + constructor; [constructor; assumption|].
      constructor; [exact Hle|].
      eapply Forall_impl; [exact Hd|].
      intros e He. unfold by_number in *. lia.
    + constructor; [exact IH|].
      rewrite insert_perm. constructor; [|exact Hd].
      unfold by_number. lia.
Qed.

Lemma sort_chunks_sorted (l : list Chunk) :
  StronglySorted by_number (sort_chunks l).
Proof.
  induction l as [|c l IH]; [constructor|].
  change (sort_chunks (c :: l)) with (insert c (sort_chunks l)).
  apply insert_sorted, IH.
Qed.

Lemma sort_chunks_same_number (k : Z) (l : list Chunk) :
  Forall (fun c => sequence_number c = k) l -> sort_chunks l = l.
Proof.
  induction 1 as [|c l Hc Hl IH]; [reflexivity|].
  change (sort_chunks (c :: l)) with (insert c (sort_chunks l)).
  rewrite IH. destruct Hl as [|d l Hd Hl]; [reflexivity|].
  cbn [insert]. rewrite Hc, Hd, Z.leb_refl. reflexivity.
Qed.

Lemma numbers_increase (n : nat) :
  StronglySorted Z.le (map Z.of_nat (seq 0 n)).
Proof.
  generalize 0%nat. induction n as [|n IH]; intros k; cbn; constructor.
  - apply IH.
  - apply Forall_forall. intros x Hx.
    apply list_elem_of_fmap in Hx as (i & -> & Hi).
    apply elem_of_seq in Hi. lia.
Qed.

Lemma sorted_numbers (l : list Chunk) :
  Permutation (map sequence_number l) (map Z.of_nat (seq 0 (length l))) ->
  map sequence_number (sort_chunks l) = map Z.of_nat (seq 0 (length l)).
Proof.
  intros Hp.
  apply (StronglySorted_unique Z.le).
  - apply (StronglySorted_fmap sequence_number by_number Z.le);
      [auto|apply sort_chunks_sorted].
  - apply numbers_increase.
  - rewrite <- Hp. apply Permutation_map, sort_chunks_perm.
Qed.

(** When the chunks of a session carry the numbers 0 to n-1, in whatever
    order the server lists them, the session shows them as Clip 1 to
    Clip n in this order, under the distinct keys 0 to n-1, and shows
    the same videos as the server sent. *)
Theorem numbered_chunks_show_in_order (session : Session) (l : list Chunk) :
  chunks session = Some l ->
  Permutation (map sequence_number l) (map Z.of_nat (seq 0 (length l))) ->
  exists clips,
    renderVideoSession (E:=E) (sorted_session session) = ([], inr clips) /\
    map key clips = map Z.of_nat (seq 0 (length l)) /\
    map caption clips
    = map (fun i => ("Clip " ++ to_string (JNum (Z.of_nat i + 1)))%string)
        (seq 0 (length l)) /\
    NoDup (map key clips) /\
    Permutation (map src clips)
      (map (fun c => ("http://127.0.0.1:8080/ipfs/" ++ video_cid c)%string) l).
Proof.
  intros Hl Hp. unfold renderVideoSession, sorted_session. cbn [chunks].
  rewrite Hl. cbn [default]. unfold id. eexists. split; [reflexivity|].
  pose proof (sorted_numbers l Hp) as Hs.
  match goal with |- map key ?c = _ /\ _ => set (clips := c) end.
  assert (Hkey : map key clips = map Z.of_nat (seq 0 (length l)))
    by (unfold clips; rewrite map_map; exact Hs).
  repeat split.
  - exact Hkey.
  - rewrite <- (map_map Z.of_nat
                  (fun n => ("Clip " ++ to_string (JNum (n + 1)))%string)).
    rewrite <- Hs. unfold clips. rewrite !map_map. reflexivity.
  - rewrite Hkey. apply (NoDup_fmap_2 Z.of_nat), NoDup_seq.
  - unfold clips. rewrite map_map. cbn [src].
    apply (Permutation_map
             (fun c => ("http://127.0.0.1:8080/ipfs/" ++ video_cid c)%string)),
      sort_chunks_perm.
Qed.

(** Chunks that all carry the same sequence number stay in the order of
    the server's list, and every one of them gets the same key and the
    same caption. *)
Theorem equal_numbers_keep_the_server_order
    (session : Session) (l : list Chunk) (k : Z) :
  chunks session = Some l ->
  Forall (fun c => sequence_number c = k) l ->
  exists clips,
    renderVideoSession (E:=E) (sorted_session session) = ([], inr clips) /\
    map src clips
    = map (fun c => ("http://127.0.0.1:8080/ipfs/" ++ video_cid c)%string) l /\
    Forall (fun clip =>
              key clip = k /\
              caption clip = ("Clip " ++ to_string (JNum (k + 1)))%string)
      clips.
Proof.
  intros Hl Hk. unfold renderVideoSession, sorted_session. cbn [chunks].
  rewrite Hl. cbn [default]. unfold id.
  rewrite (sort_chunks_same_number k l Hk).
  eexists. split; [reflexivity|]. split.
  - rewrite map_map. reflexivity.
  - apply Forall_map. eapply Forall_impl; [exact Hk|].
    intros c Hc. cbn [key caption]. rewrite Hc. split; reflexivity.
Qed.

End GalleryFacts.

Section FetchMediaFacts.
Import Gallery.

Lemma sorted_sessions_kept (l : list Session) :
  Forall2 (fun given shown =>
             session_id shown = session_id given /\
             exists cs,
               chunks shown = Some cs /\
               Permutation cs (default [] (chunks given)) /\
               StronglySorted by_number cs)
    l (map sorted_session l).
Proof.
  induction l as [|s l IH]; cbn [map]; constructor; [|exact IH].
  split; [reflexivity|]. eexists. split; [reflexivity|]. split.
  - apply sort_chunks_perm.
  - apply sort_chunks_sorted.
Qed.

Lemma all_empty {A B C} (p : list A) (v : list B) (s : list C) :
  Nat.eqb (length p) 0 && Nat.eqb (length v) 0 && Nat.eqb (length s) 0 = true
  <-> p = [] /\ v = [] /\ s = [].
Proof.
  destruct p, v, s; cbn; split; intros H; try discriminate H;
    try (destruct H as (? & ? & ?); discriminate); auto.
Qed.

Lemma report_state (which : string) (e : jsval) (st : State) :
  snd (report which e) = inr tt /\
  media (fold_left apply (fst (report which e)) st) = media st /\
  loading (fold_left apply (fst (report which e)) st) = loading st /\
  error (fold_left apply (fst (report which e)) st) = error st /\
  noMediaMessage (fold_left apply (fst (report which e)) st)
  = noMediaMessage st.
Proof.
  unfold report. destruct (truthy e); cbn; repeat split; reflexivity.
Qed.

(** When both requests are answered, [fetchMedia] ends with the spinner
    off and no error; the page holds the NFTs of type photo and of type
    video, and every session of the answer with its own chunks in the
    order of their sequence numbers (no chunks when the session has
    none).  The message that no media was found is set exactly when all
    three lists are empty, NFTs of other types notwithstanding. *)
Theorem fetchMedia_shows_what_the_server_lists
    (account : jsval) (server : Server) (st0 : State)
    (n : NftsData) (s : SessionsData) :
  truthy account = true ->
  nfts_of server (to_string account) = Answers n ->
  sessions_of server (to_string account) = Answers s ->
  let st := fold_left apply (fst (fetchMedia account server)) st0 in
  snd (fetchMedia account server) = inr tt /\
  loading st = false /\
  error st = None /\
  photos (media st)
  = List.filter (fun nft => is_literal "photo" (get nft "type"))
      (default [] (nfts n)) /\
  videos (media st)
  = List.filter (fun nft => is_literal "video" (get nft "type"))
      (default [] (nfts n)) /\
  Forall2 (fun given shown =>
             session_id shown = session_id given /\
             exists cs,
               chunks shown = Some cs /\
               Permutation cs (default [] (chunks given)) /\
               StronglySorted by_number cs)
    (default [] (sessions s)) (videoSessions (media st)) /\
  noMediaMessage st
  = (if Nat.eqb (length (photos (media st))) 0 &&
        Nat.eqb (length (videos (media st))) 0 &&
        Nat.eqb (length (default [] (sessions s))) 0
     then Some "No media found for this wallet. Try capturing some photos first!"
     else None).
Proof.
  intros Ht Hn Hs. cbv zeta. unfold fetchMedia. rewrite Ht, Hn, Hs.
  cbn [negb settle].
  cbn [bind emit ret try_catch try_finally app].
  set (P := List.filter (fun nft => is_literal "photo" (get nft "type"))
              (default [] (nfts n))).
  set (V := List.filter (fun nft => is_literal "video" (get nft "type"))
              (default [] (nfts n))).
  set (S := map sorted_session (default [] (sessions s))).
  assert (HS : length S = length (default [] (sessions s)))
    by (unfold S; apply length_map).
  rewrite <- HS.
  pose proof (sorted_sessions_kept (default [] (sessions s))) as Hkept.
  fold S in Hkept.
  unfold report.
  destruct (truthy (nfts_error n)), (truthy (sessions_error s)),
    (Nat.eqb (length P) 0 && Nat.eqb (length V) 0 && Nat.eqb (length S) 0)
    eqn:Hempty;
    cbn -[P V S]; rewrite ?Hempty; repeat split; auto.
Qed.

(** When one of the two requests fails, [fetchMedia] still returns with
    the spinner off; what the page showed before is wiped, the failure
    message is set, no toast is raised, and if it is the first request
    that fails the second is never sent. *)
Theorem failed_fetch_clears_the_page
    (account : jsval) (server : Server) (st0 : State) (message : string) :
  truthy account = true ->
  nfts_of server (to_string account) = Fails message \/
  (exists n, nfts_of server (to_string account) = Answers n) /\
  sessions_of server (to_string account) = Fails message ->
  let acts := fst (fetchMedia account server) in
  let st := fold_left apply acts st0 in
  snd (fetchMedia account server) = inr tt /\
  loading st = false /\
  media st = no_media /\
  error st = Some ("Error fetching media: " ++ message)%string /\
  noMediaMessage st = Some "Failed to load media. Please try again later." /\
  toasts st = toasts st0 /\
  (nfts_of server (to_string account) = Fails message ->
   requests acts = [("http://localhost:5000/nfts/" ++ to_string account)%string]).
Proof.
  intros Ht Hfail. cbv zeta. unfold fetchMedia. rewrite Ht. cbn [negb].
  destruct Hfail as [Hn|[[n Hn] Hs]].
  - rewrite Hn. cbn. repeat split; reflexivity.
  - rewrite Hn, Hs. cbn. repeat split; try reflexivity.
    intros Habs. discriminate Habs.
Qed.

End FetchMediaFacts.

Section GalleryExamples.
Import Gallery.

(** Witness: three chunks listed as 2, 0, 1. *)
Lemma numbered_chunks_show_in_order_witness :
  exists clips,
    renderVideoSession (E:=action)
      (sorted_session
         {| session_id := JNum 1;
            chunks := Some [ {| sequence_number := 2; video_cid := "QmC" |};
                             {| sequence_number := 0; video_cid := "QmA" |};
                             {| sequence_number := 1; video_cid := "QmB" |} ] |})
    = ([], inr clips) /\
    map key clips = [0; 1; 2] /\
    map caption clips = ["Clip 1"; "Clip 2"; "Clip 3"]%string.
Proof.
  destruct (numbered_chunks_show_in_order (E:=action)
              {| session_id := JNum 1;
                 chunks := Some [ {| sequence_number := 2; video_cid := "QmC" |};
                                  {| sequence_number := 0; video_cid := "QmA" |};
                                  {| sequence_number := 1; video_cid := "QmB" |} ] |}
              [ {| sequence_number := 2; video_cid := "QmC" |};
                {| sequence_number := 0; video_cid := "QmA" |};
                {| sequence_number := 1; video_cid := "QmB" |} ])
    as (clips & Hr & Hk & Hc & _).
  - reflexivity.
  - cbn. etransitivity; [apply perm_swap|]. apply perm_skip, perm_swap.
  - exists clips. split; [exact Hr|]. split; [exact Hk|exact Hc].
Defined.

(** Witness: two chunks that both carry the number 0. *)
Lemma equal_numbers_keep_the_server_order_witness :
  exists clips,
    renderVideoSession (E:=action)
      (sorted_session
         {| session_id := JNum 1;
            chunks := Some [ {| sequence_number := 0; video_cid := "QmB" |};
                             {| sequence_number := 0; video_cid := "QmA" |} ] |})
    = ([], inr clips) /\
    map src clips
    = [ "http://127.0.0.1:8080/ipfs/QmB";
        "http://127.0.0.1:8080/ipfs/QmA" ]%string /\
    Forall (fun clip => key clip = 0 /\ caption clip = "Clip 1"%string) clips.
Proof.
  apply (equal_numbers_keep_the_server_order (E:=action)
           {| session_id := JNum 1;
              chunks := Some [ {| sequence_number := 0; video_cid := "QmB" |};
                               {| sequence_number := 0; video_cid := "QmA" |} ] |}
           [ {| sequence_number := 0; video_cid := "QmB" |};
             {| sequence_number := 0; video_cid := "QmA" |} ] 0).
  - reflexivity.
  - repeat constructor.
Defined.

(** Witness: a wallet with a photo, a ticket and one session. *)
Lemma fetchMedia_shows_what_the_server_lists_witness :
  let st :=
    fold_left apply
      (fst (fetchMedia (JStr "0x71C7656EC7ab88b098defB751B7401B5f6d8976F")
              example_server))
      initial in
  loading st = false /\
  photos (media st) = [ {[ "type" := JStr "photo" ]} ] /\
  videos (media st) = [] /\
  noMediaMessage st = None.
Proof.
  cbv zeta.
  destruct (fetchMedia_shows_what_the_server_lists
              (JStr "0x71C7656EC7ab88b098defB751B7401B5f6d8976F")
              example_server initial _ _ eq_refl eq_refl eq_refl)
    as (_ & Hl & _ & Hp & Hv & _ & Hm).
  split; [exact Hl|].
  split; [rewrite Hp; reflexivity|].
  split; [rewrite Hv; reflexivity|].
  rewrite Hm, Hp, Hv. reflexivity.
Defined.

(** Witness: the server goes away while the page shows a photo. *)
Lemma failed_fetch_clears_the_page_witness :
  let st :=
    fold_left apply
      (fst (fetchMedia (JStr "0x71C7656EC7ab88b098defB751B7401B5f6d8976F")
              unreachable_server))
      page_with_a_photo in
  media st = no_media /\
  error st = Some "Error fetching media: Network Error"%string /\
  loading st = false.
Proof.
  cbv zeta.
  destruct (failed_fetch_clears_the_page
              (JStr "0x71C7656EC7ab88b098defB751B7401B5f6d8976F")
              unreachable_server page_with_a_photo "Network Error"
              eq_refl (or_introl eq_refl))
    as (_ & Hl & Hm & He & _).
  split; [exact Hm|]. split; [exact He|exact Hl].
Defined.

End GalleryExamples.

(** ** Navbar: connecting the wallet *)

Section NavbarFacts.
Import Navbar.

Lemma toasts_app (a b : list effect) :
  toasts (a ++ b) = (toasts a ++ toasts b)%list.
Proof. apply omap_app. Qed.

Lemma requests_app (a b : list effect) :
  requests (a ++ b) = (requests a ++ requests b)%list.
Proof. apply omap_app. Qed.

Lemma activated_app (a b : list effect) :
  activated (a ++ b) = activated a || activated b.
Proof. apply existsb_app. Qed.

Lemma toasts_cons (e : effect) (l : list effect) :
  toasts (e :: l)
  = match e with Toast title _ _ => title :: toasts l | _ => toasts l end.
Proof. destruct e; reflexivity. Qed.

Lemma requests_cons (e : effect) (l : list effect) :
  requests (e :: l)
  = match e with
    | Request method _ => method :: requests l
    | _ => requests l
    end.
Proof. destruct e; reflexivity. Qed.

Lemma activated_cons (e : effect) (l : list effect) :
  activated (e :: l)
  = match e with Activate => true | _ => activated l end.
Proof. destruct e; reflexivity. Qed.

Lemma handled_effects (reported : list Thrown) :
  let es := flat_map (fun e => fst (onError e)) reported in
  toasts es
  = repeat "Pending Request"
      (length (List.filter (fun e => is_number (-32002) (code e)) reported)) /\
  requests es = [] /\
  activated es = false /\
  Forall (fun e => In (LogError "Activation error:" e) es) reported.
Proof.
  cbv zeta. induction reported as [|e l (IHt & IHr & IHa & IHl)].
  - repeat split; constructor.
  - cbn [flat_map List.filter].
    rewrite toasts_app, requests_app, activated_app, IHt, IHr, IHa.
    unfold onError.
    destruct (is_number (-32002) (code e)); cbn; repeat split; auto;
      (constructor; [left; reflexivity|]);
      (eapply Forall_impl; [exact IHl|]); intros x Hx; right; auto;
      right; exact Hx.
Qed.

Lemma description_is_shown (v : jsval) (fallback : string) :
  fallback <> "" -> truthy (js_or v (JStr fallback)) = true.
Proof.
  intros Hf. unfold js_or. destruct (truthy v) eqn:Hv; [exact Hv|].
  cbn. destruct (String.eqb_spec fallback ""); [contradiction|reflexivity].
Qed.

Ltac read_effects :=
  repeat first
    [ rewrite toasts_app | rewrite requests_app | rewrite activated_app
    | rewrite toasts_cons | rewrite requests_cons | rewrite activated_cons
    | progress cbn [app orb] ];
  change (toasts []) with (@nil string) in *;
  change (requests []) with (@nil string) in *;
  change (activated []) with false in *.

Ltac run_bar :=
  cbn [say and_then catch request raise done activate fst snd app
       ethereum selectedAddress eth_requestAccounts
       wallet_switchEthereumChain wallet_addEthereumChain activation
       deactivation negb andb resolves reported_errors].

Lemma connectWallet_effects (env : Env) :
  snd (connectWallet env) = inr tt /\
  toasts (fst (connectWallet env))
  = ((if network_ready env
      then repeat "Pending Request" (pending (activation env))
      else []) ++
     [if network_ready env && resolves (activation env)
      then "Wallet Connected" else "Connection Error"])%list /\
  activated (fst (connectWallet env)) = network_ready env /\
  requests (fst (connectWallet env))
  = (if ethereum env
     then "eth_requestAccounts" ::
          match eth_requestAccounts env with
          | Some _ => []
          | None =>
              "wallet_switchEthereumChain" ::
              match wallet_switchEthereumChain env with
              | Some e =>
                  if is_number 4902 (code e)
                  then ["wallet_addEthereumChain"] else []
              | None => []
              end
          end
     else [])%string.
Proof.
  destruct env as [eth sel acc sw add act deact].
  unfold connectWallet, switch_network, network_ready, pending.
  cbn [ethereum selectedAddress eth_requestAccounts
       wallet_switchEthereumChain wallet_addEthereumChain activation
       deactivation].
  destruct (handled_effects (reported_errors act)) as (Ht & Hr & Ha & _).
  cbv zeta in Ht, Hr, Ha. unfold activate.
  change (match act with Resolves r | Rejects r _ => r end)
    with (reported_errors act).
  revert Ht Hr Ha.
  generalize (flat_map (fun e => fst (onError e)) (reported_errors act)).
  intros handled Ht Hr Ha.
  destruct eth, acc as [e1|], sw as [e2|], add as [e3|], act as [rep|rep e'];
    run_bar;
    try (destruct (is_number 4902 (code e2)); run_bar);
    read_effects; rewrite ?Ht, ?Hr, ?Ha;
    cbn [app orb andb]; rewrite ?app_nil_r;
    repeat split; reflexivity.
Qed.

Lemma is_number_spec (n : Z) (v : jsval) :
  is_number n v = true <-> v = JNum n.
Proof.
  destruct v; cbn; split; intros H; try discriminate H.
  - apply Z.eqb_eq in H. now subst.
  - injection H as ->. apply Z.eqb_refl.
Qed.

(** [connectWallet] never throws and always ends with exactly one
    verdict: after the reminders of a pending request that [onError] may
    have raised, the last toast is the success toast when the steps before
    [activate] went through and its promise resolved, and the error toast
    in every other case. *)
Theorem connectWallet_ends_with_one_verdict (env : Env) :
  snd (connectWallet env) = inr tt /\
  exists reminders : nat,
    (reminders <= length (reported_errors (activation env)))%nat /\
    toasts (fst (connectWallet env))
    = (repeat "Pending Request" reminders ++
       [if network_ready env && resolves (activation env)
        then "Wallet Connected" else "Connection Error"])%list.
Proof.
  destruct (connectWallet_effects env) as (Hr & Ht & _).
  split; [exact Hr|]. rewrite Ht.
  destruct (network_ready env).
  - exists (pending (activation env)). split; [|reflexivity].
    unfold pending. apply List.filter_length_le.
  - exists 0%nat. split; [lia|reflexivity].
Qed.

(** [connectWallet] calls [activate] exactly when the wallet is there,
    grants the accounts and has selected the chain; it asks the wallet to
    add the chain only after the switch was refused with code 4902, and
    sends no request at all without a wallet. *)
Theorem activation_waits_for_the_network (env : Env) :
  activated (fst (connectWallet env)) = network_ready env /\
  (In "wallet_addEthereumChain" (requests (fst (connectWallet env))) <->
   ethereum env = true /\ eth_requestAccounts env = None /\
   exists e, wallet_switchEthereumChain env = Some e /\ code e = JNum 4902) /\
  (ethereum env = false -> requests (fst (connectWallet env)) = []).
Proof.
  destruct (connectWallet_effects env) as (_ & _ & Ha & Hq).
  split; [exact Ha|]. rewrite Hq. split.
  - destruct (ethereum env); [|split; [intros []|intros (H & _); discriminate H]].
    destruct (eth_requestAccounts env) as [e1|].
    { split; [intros [H|[]]; discriminate H|intros (_ & H & _); discriminate H]. }
    destruct (wallet_switchEthereumChain env) as [e|].
    + destruct (is_number 4902 (code e)) eqn:Hc.
      * split; [|intros _; right; right; left; reflexivity].
        intros _. repeat split. exists e. split; [reflexivity|].
        apply is_number_spec, Hc.
      * split.
        -- intros [H|[H|[]]]; discriminate H.
        -- intros (_ & _ & e' & He & Hcode). injection He as <-.
           apply is_number_spec in Hcode. congruence.
    + split.
      * intros [H|[H|[]]]; discriminate H.
      * intros (_ & _ & e' & He & _). discriminate He.
  - intros ->. reflexivity.
Qed.

(** When the promise of [activate] resolves although the library handed
    errors to [onError], the bar still announces a connected wallet: the
    last toast is 'Wallet Connected', after one 'Pending Request'
    reminder for each error of code -32002; if none of the errors has
    that code, it is the only toast the user sees. *)
Theorem reported_error_still_says_connected
    (env : Env) (reported : list Thrown) :
  network_ready env = true ->
  activation env = Resolves reported ->
  snd (connectWallet env) = inr tt /\
  toasts (fst (connectWallet env))
  = (repeat "Pending Request"
       (length (List.filter (fun e => is_number (-32002) (code e)) reported))
     ++ ["Wallet Connected"])%list /\
  (Forall (fun e => code e <> JNum (-32002)) reported ->
   toasts (fst (connectWallet env)) = ["Wallet Connected"]).
Proof.
  intros Hready Hact.
  destruct (connectWallet_effects env) as (Hr & Ht & _).
  split; [exact Hr|]. rewrite Ht, Hready, Hact. unfold pending.
  cbn [reported_errors resolves andb].
  split; [reflexivity|]. intros Hcodes.
  replace (List.filter (fun e => is_number (-32002) (code e)) reported)
    with (@nil Thrown); [reflexivity|].
  symmetry. clear - Hcodes.
  induction Hcodes as [|e l He _ IH]; [reflexivity|].
  cbn [List.filter]. destruct (is_number (-32002) (code e)) eqn:Hc.
  - apply is_number_spec in Hc. contradiction.
  - exact IH.
Qed.

(** The automatic reconnection at mount is silent for the user: it never
    throws and shows no toast, also when the activation is rejected or
    reports errors, and it calls [activate] exactly when the wallet is
    there with a selected address. *)
Theorem checkAndConnect_is_silent (env : Env) :
  snd (checkAndConnect env) = inr tt /\
  toasts (fst (checkAndConnect env)) = [] /\
  activated (fst (checkAndConnect env))
  = ethereum env && truthy (selectedAddress env).
Proof.
  unfold checkAndConnect.
  destruct (ethereum env && truthy (selectedAddress env));
    [|repeat split; reflexivity].
  destruct (activation env) as [rep|rep e]; repeat split; reflexivity.
Qed.

End NavbarFacts.

Section NavbarExamples.
Import Navbar.

(** Witness: the chain is added, the activation error is handed to
    [onError], and the promise resolves. *)
Lemma reported_error_still_says_connected_witness :
  snd (connectWallet example_env) = inr tt /\
  toasts (fst (connectWallet example_env)) = ["Wallet Connected"].
Proof.
  destruct (reported_error_still_says_connected example_env
              [ {| code := JUndef;
                   message := JStr "Unsupported chain id: 24750." |} ]
              eq_refl eq_refl) as (Hr & _ & Ht).
  split; [exact Hr|]. apply Ht.
  constructor; [discriminate|constructor].
Defined.

End NavbarExamples.

(** ** VerifyMedia: the result box *)

Section VerifyFacts.
Import VerifyMedia.

Context {E : Type}.

(** [verifyTxHash] never throws.  With an empty input it sends nothing
    and only raises a toast; otherwise it sends one request and ends with
    the spinner off.  The result on screen is replaced only by an answer:
    after a failed request the previous result stays, next to the error
    toast, whose description is never empty. *)
Theorem failed_verification_keeps_the_old_result
    (txHashInput : string) (server : Server) (st : State) :
  let acts := fst (verifyTxHash txHashInput server) in
  let st' := fold_left apply acts st in
  snd (verifyTxHash txHashInput server) = inr tt /\
  requests acts
  = (if truthy (JStr txHashInput)
     then [("http://localhost:5000/api/verify/tx/" ++ txHashInput)%string]
     else []) /\
  loading st' = (if truthy (JStr txHashInput) then false else loading st) /\
  verificationResult st'
  = (if truthy (JStr txHashInput)
     then match verify_tx server txHashInput with
          | Answers data => data
          | Fails _ => verificationResult st
          end
     else verificationResult st) /\
  exists shown,
    toasts st' = (toasts st ++ shown)%list /\
    Forall (fun description => description <> ""%string) shown /\
    (shown = [] <->
     truthy (JStr txHashInput) = true /\
     exists data, verify_tx server txHashInput = Answers data).
Proof.
  cbv zeta. unfold verifyTxHash.
  destruct (truthy (JStr txHashInput)) eqn:Hin; cbn [negb].
  - destruct (verify_tx server txHashInput) as [message|data]; cbn.
    + repeat split.
      unfold js_or. cbn [truthy].
      destruct (String.eqb_spec message "") as [->|Hm]; cbn [negb to_string].
      * eexists. split; [reflexivity|]. split; [constructor; [discriminate|constructor]|].
        split; [discriminate|]. intros (_ & d & Hd). discriminate Hd.
      * eexists. split; [reflexivity|]. split; [constructor; [exact Hm|constructor]|].
        split; [discriminate|]. intros (_ & d & Hd). discriminate Hd.
    + repeat split. exists []. rewrite app_nil_r.
      split; [reflexivity|]. split; [constructor|].
      split; [|reflexivity]. intros _. split; [reflexivity|eauto].
  - cbn. repeat split. eexists. split; [reflexivity|].
    split; [constructor; [discriminate|constructor]|].
    split; [discriminate|]. intros (H & _). discriminate H.
Qed.

Lemma field_items (result : gmap string jsval) (k label : string)
    (l : list E) (items : list Item) :
  field (E:=E) result k label = (l, inr items) ->
  (forall label' t, In (Row label' t) items ->
     label' = label /\ truthy (get result k) = true) /\
  (truthy (get result k) = true -> exists t, items = [Row label t]) /\
  (truthy (get result k) = false -> items = [Leftover (get result k)]).
Proof.
  unfold field, when.
  destruct (truthy (get result k)) eqn:Hv.
  - destruct (child (E:=E) (get result k)) as [l' [e|t]]; cbn;
      intros H; [discriminate H|]. injection H as _ <-.
    split; [|split; [eauto|discriminate]].
    intros label' t' [Hr|[]]. injection Hr as <- _. auto.
  - cbn. intros H. injection H as _ <-.
    split; [|split; [discriminate|reflexivity]].
    intros label' t' [Hr|[]]. discriminate Hr.
Qed.

Lemma owner_items (result : gmap string jsval)
    (l : list E) (items : list Item) :
  owner_tag (E:=E) result = (l, inr items) ->
  forall label' t, In (Row label' t) items -> label' = "Owner"%string.
Proof.
  unfold owner_tag, when.
  destruct (truthy (get result "owner")).
  - destruct (get result "owner"); cbn; intros H; try discriminate H.
    injection H as _ <-. intros label' t' [Hr|[]]. now injection Hr as <- _.
  - cbn. intros H. injection H as _ <-.
    intros label' t' [Hr|[]]. discriminate Hr.
Qed.

Lemma bind_returns {A B} (m : M E A) (k : A -> M E B)
    (l : list E) (b : B) :
  bind m k = (l, inr b) ->
  exists l1 a l2, m = (l1, inr a) /\ k a = (l2, inr b).
Proof.
  destruct m as [l1 [e|a]]; cbn [bind]; [discriminate|].
  destruct (k a) as [l2 r] eqn:Hk. intros H. injection H as _ ->.
  exists l1, a, l2. split; [reflexivity|exact Hk].
Qed.

(** In the result box a field gets its labelled line exactly when its
    value is truthy.  A field whose value is falsy gets none, the number
    0 included: for a token id 0, a session id 0 or the sequence number
    0 of a first chunk, the expression hands the number itself to the
    stack instead of a line. *)
Theorem falsy_fields_get_no_line
    (st : State) (result : gmap string jsval)
    (l : list E) (items : list Item) :
  verificationResult st = Some result ->
  loading st = false ->
  result_box (E:=E) st = (l, inr items) ->
  forall k label,
    In (k, label) labelled_fields ->
    ((exists t, In (Row label t) items) <-> truthy (get result k) = true) /\
    (truthy (get result k) = false ->
     In (Leftover (get result k)) items) /\
    (get result k = JNum 0 ->
     In (Leftover (JNum 0)) items /\ forall t, ~ In (Row label t) items).
Proof.
  intros Hres Hload Hbox. unfold result_box in Hbox.
  rewrite Hres, Hload in Hbox. cbn [negb] in Hbox.
  apply bind_returns in Hbox as (? & i1 & ? & F1 & Hbox).
  apply bind_returns in Hbox as (? & i2 & ? & F2 & Hbox).
  apply bind_returns in Hbox as (? & i3 & ? & F3 & Hbox).
  apply bind_returns in Hbox as (? & i4 & ? & F4 & Hbox).
  apply bind_returns in Hbox as (? & i5 & ? & F5 & Hbox).
  apply bind_returns in Hbox as (? & i6 & ? & F6 & Hbox).
  apply bind_returns in Hbox as (? & i7 & ? & F7 & Hbox).
  apply bind_returns in Hbox as (? & i8 & ? & F8 & Hbox).
  apply bind_returns in Hbox as (? & i9 & ? & F9 & Hbox).
  apply bind_returns in Hbox as (? & i10 & ? & F10 & Hbox).
  apply bind_returns in Hbox as (? & i11 & ? & F11 & Hbox).
  injection Hbox as _ <-.
  apply field_items in F1 as (R1 & T1 & L1).
  apply field_items in F2 as (R2 & T2 & L2).
  apply field_items in F3 as (R3 & T3 & L3).
  pose proof (owner_items _ _ _ F4) as R4.
  apply field_items in F5 as (R5 & T5 & L5).
  apply field_items in F6 as (R6 & T6 & L6).
  apply field_items in F7 as (R7 & T7 & L7).
  apply field_items in F8 as (R8 & T8 & L8).
  apply field_items in F9 as (R9 & T9 & L9).
  apply field_items in F10 as (R10 & T10 & L10).
  apply field_items in F11 as (R11 & T11 & L11).
  assert (Hrows : forall k label, In (k, label) labelled_fields ->
            forall t,
              In (Row label t)
                (i1 ++ [Row "Blockchain Status" (status_text result)] ++
                 i2 ++ i3 ++ i4 ++ i5 ++ i6 ++ i7 ++ i8 ++ i9 ++ i10 ++ i11) ->
              truthy (get result k) = true).
  { intros k label Hin t Ht.
    repeat first [rewrite in_app_iff in Ht | progress cbn [app In] in Ht].
    unfold labelled_fields in Hin. cbn [In] in Hin.
    destruct Hin
      as [Hin|[Hin|[Hin|[Hin|[Hin|[Hin|[Hin|[Hin|[Hin|[Hin|[]]]]]]]]]]];
      injection Hin as <- <-;
      repeat destruct Ht as [Ht|Ht];
      solve [ discriminate Ht | destruct Ht
            | apply R4 in Ht; discriminate Ht
            | first [ apply R1 in Ht | apply R2 in Ht | apply R3 in Ht
                    | apply R5 in Ht | apply R6 in Ht | apply R7 in Ht
                    | apply R8 in Ht | apply R9 in Ht | apply R10 in Ht
                    | apply R11 in Ht ];
              destruct Ht as [Hl Htr];
              first [ discriminate Hl | exact Htr ] ]. }
  assert (Hshown : forall k label, In (k, label) labelled_fields ->
            (truthy (get result k) = true ->
             exists t,
               In (Row label t)
                 (i1 ++ [Row "Blockchain Status" (status_text result)] ++
                  i2 ++ i3 ++ i4 ++ i5 ++ i6 ++ i7 ++ i8 ++ i9 ++ i10 ++ i11)) /\
            (truthy (get result k) = false ->
             In (Leftover (get result k))
               (i1 ++ [Row "Blockchain Status" (status_text result)] ++
                i2 ++ i3 ++ i4 ++ i5 ++ i6 ++ i7 ++ i8 ++ i9 ++ i10 ++ i11))).
  { intros k label Hin.
    unfold labelled_fields in Hin. cbn [In] in Hin.
    destruct Hin
      as [Hin|[Hin|[Hin|[Hin|[Hin|[Hin|[Hin|[Hin|[Hin|[Hin|[]]]]]]]]]]];
      injection Hin as <- <-;
      (split;
       [ intros Htr;
         match goal with
         | T : truthy (get result _) = true -> exists t, _ = [Row _ t] |- _ =>
             destruct (T Htr) as [t ->]; exists t
         end
       | intros Hf;
         match goal with
         | L : truthy (get result _) = false -> _ = [Leftover _] |- _ =>
             rewrite (L Hf)
         end ]);
      repeat first [rewrite in_app_iff | progress cbn [app In]];
      repeat first [ left; left; reflexivity | left; reflexivity | right ]. }
  intros k label Hin. destruct (Hshown k label Hin) as [Hyes Hno].
  split; [|split].
  - split; [intros [t Ht]; exact (Hrows k label Hin t Ht)|exact Hyes].
  - exact Hno.
  - intros Hz.
    assert (Hf : truthy (get result k) = false) by (rewrite Hz; reflexivity).
    split.
    + rewrite <- Hz. exact (Hno Hf).
    + intros t Ht. pose proof (Hrows k label Hin t Ht) as Htr. congruence.
Qed.

End VerifyFacts.

Section VerifyExamples.
Import VerifyMedia.

(** Witness: the answer for the first chunk of a session. *)
Lemma falsy_fields_get_no_line_witness :
  exists items,
    result_box (E:=action)
      {| verificationResult := Some first_chunk_result; loading := false;
         toasts := [] |}
    = ([], inr items) /\
    In (Leftover (JNum 0)) items /\
    (forall t, ~ In (Row "Sequence Number" t) items) /\
    (exists t, In (Row "Session ID" t) items).
Proof.
  eexists. split; [reflexivity|].
  destruct (falsy_fields_get_no_line (E:=action)
              {| verificationResult := Some first_chunk_result;
                 loading := false; toasts := [] |}
              first_chunk_result [] _ eq_refl eq_refl eq_refl
              "sequence_number" "Sequence Number")%string
    as (_ & _ & Hzero).
  { unfold labelled_fields. cbn [In]. tauto. }
  destruct (falsy_fields_get_no_line (E:=action)
              {| verificationResult := Some first_chunk_result;
                 loading := false; toasts := [] |}
              first_chunk_result [] _ eq_refl eq_refl eq_refl
              "session_id" "Session ID")%string
    as (Hline & _).
  { unfold labelled_fields. cbn [In]. tauto. }
  destruct (Hzero eq_refl) as [Hin Hnone].
  split; [exact Hin|]. split; [exact Hnone|].
  apply Hline. reflexivity.
Defined.

End VerifyExamples.
